(** * Sandbox core: workspace paths, local execution engine, lifecycle

    A shallow embedding of the sandbox core of the backend:

    - [backend/core/sandbox/api.py]: [normalize_path], [_fix_path_duplications];
    - [backend/core/sandbox/workspace_config.py]: [WorkspaceConfig];
    - [backend/core/sandbox/providers/local_process.py]: [_LocalFS],
      [LocalProcessSandbox];
    - [backend/core/sandbox/sandbox.py] and [backend/core/sandbox/tool_base.py]:
      provider functions and [SandboxToolsBase._ensure_sandbox].

    Python [str] values are sequences of Unicode code points, [bytes] values
    are sequences of bytes; dictionaries are finite maps; the file system, the
    metadata store, the object heap and the process table are explicit state. *)

From Stdlib Require Import ZArith NArith Ascii String.
From Stdlib.Strings Require Import Byte.
From stdpp Require Import gmap strings list fin_maps sorting.

Set Default Proof Using "Type".
Open Scope N_scope.

(** ** Python strings *)

(** A Python [str]: a sequence of code points. *)
Definition pstr : Type := list N.

(** A literal, written as an ASCII string. *)
Definition py (s : string) : pstr :=
  map N_of_ascii (list_ascii_of_string s).

Module PyStr.

Definition slash : N := 47.      (* '/' *)
Definition backslash : N := 92.  (* '\' *)
Definition percent : N := 37.    (* '%' *)
Definition dot : N := 46.        (* '.' *)

Definition eqb (a b : pstr) : bool := bool_decide (a = b).

(** [c in s] *)
Definition contains (c : N) (s : pstr) : bool := existsb (N.eqb c) s.

(** [s.startswith(p)] *)
Fixpoint startswith (p s : pstr) : bool :=
  match p, s with
  | [], _ => true
  | _ :: _, [] => false
  | a :: p', b :: s' => (a =? b) && startswith p' s'
  end.

(** [s.lstrip(c)] for a one-character argument. *)
Fixpoint lstrip (c : N) (s : pstr) : pstr :=
  match s with
  | [] => []
  | a :: s' => if a =? c then lstrip c s' else s
  end.

(** [s.rstrip(c)] *)
Definition rstrip (c : N) (s : pstr) : pstr := rev (lstrip c (rev s)).

(** [s.strip(c)] *)
Definition strip (c : N) (s : pstr) : pstr := rstrip c (lstrip c s).

(** [s.replace(a, b)] where [a] and [b] are single characters. *)
Definition replace_char (a b : N) (s : pstr) : pstr :=
  map (fun c => if c =? a then b else c) s.

(** [s.replace(old, new)] for a non-empty [old]: the non-overlapping
    occurrences of [old], from the left.  With an empty [old] Python puts
    [new] before every character and at the end. *)
Fixpoint replace_from (old new : pstr) (s : pstr) (skip : nat) : pstr :=
  match s with
  | [] => []
  | c :: s' =>
      match skip with
      | S k => replace_from old new s' k
      | O => if startswith old s
             then new ++ replace_from old new s' (length old - 1)
             else c :: replace_from old new s' 0
      end
  end.

Definition replace (old new s : pstr) : pstr :=
  match old with
  | [] => new ++ concat (map (fun c => c :: new) s)
  | _ :: _ => replace_from old new s 0
  end.

(** [s.split(sep)] for a one-character separator: never the empty list. *)
Fixpoint split (sep : N) (s : pstr) : list pstr :=
  match s with
  | [] => [[]]
  | c :: s' =>
      if c =? sep then [] :: split sep s'
      else match split sep s' with
           | [] => [[c]]
           | w :: ws => (c :: w) :: ws
           end
  end.

(** [sep.join(parts)] *)
Fixpoint join (sep : pstr) (parts : list pstr) : pstr :=
  match parts with
  | [] => []
  | [w] => w
  | w :: ws => w ++ sep ++ join sep ws
  end.

(** Truth value of a string: non-empty. *)
Definition truthy (s : pstr) : bool :=
  match s with [] => false | _ => true end.

(** [s.split(pat)[1]] up to the next [pat], when [pat in s]: here the text
    after the first occurrence of [pat]. *)
Fixpoint after_first (pat s : pstr) : option pstr :=
  if startswith pat s then Some (drop (length pat) s)
  else match s with
       | [] => None
       | _ :: s' => after_first pat s'
       end.

(** [s.split(c)[0]] *)
Fixpoint before_first (c : N) (s : pstr) : pstr :=
  match s with
  | [] => []
  | a :: s' => if a =? c then [] else a :: before_first c s'
  end.

End PyStr.

(** ** Exceptions and results *)

(** The exceptions the modelled code raises or lets through. *)
Inductive exn : Type :=
| FileNotFoundError
| NotADirectoryError
| IsADirectoryError
| FileExistsError
| UnicodeDecodeError
| ValueError (msg : string)
| RuntimeError (msg : string)
| KeyError (key : string)
| Exception (msg : string)
| ProviderError (msg : string).

#[export] Instance exn_eq_dec : EqDecision exn.
Proof. solve_decision. Defined.

(** The outcome of a call: a value, or a raised exception. *)
Definition result (A : Type) : Type := A + exn.

(** Propagation of exceptions through a sequence of calls on a state. *)
Definition bind {S A B : Type} (m : result A * S) (k : A -> S -> result B * S)
  : result B * S :=
  match m with
  | (inl a, s) => k a s
  | (inr e, s) => (inr e, s)
  end.

(** ** Python values and dictionaries *)

Inductive value : Type :=
| VNone
| VBool (b : bool)
| VInt (z : Z)
| VStr (s : pstr).

#[export] Instance value_eq_dec : EqDecision value.
Proof. solve_decision. Defined.

(** A [dict] with string keys. *)
Abbreviation dict := (gmap string value).

(** Truth value, as [if v:] and [not v] read it. *)
Definition value_truthy (v : value) : bool :=
  match v with
  | VNone => false
  | VBool b => b
  | VInt z => negb (z =? 0)%Z
  | VStr s => PyStr.truthy s
  end.

(** [d.get(k)]: [None] for a missing key. *)
Definition dict_get (d : dict) (k : string) : value := default VNone (d !! k).

(** ** [urllib.parse.unquote] and the escape pattern

    The standard-library pieces [normalize_path] calls, as CPython defines
    them: percent-decoding of the ASCII runs of the string, their bytes read
    as UTF-8 with [errors='replace']. *)

Module Urllib.
Import PyStr.

(** Value of a hexadecimal digit ([0-9A-Fa-f]). *)
Definition hexval (c : N) : option N :=
  if (48 <=? c) && (c <=? 57) then Some (c - 48)
  else if (65 <=? c) && (c <=? 70) then Some (c - 55)
  else if (97 <=? c) && (c <=? 102) then Some (c - 87)
  else None.

(** One item of [string.split(b'%')] after the first: a byte when the item
    starts with two hexadecimal digits, the item with its ['%'] otherwise. *)
Definition unquote_item (item : pstr) : list N :=
  match item with
  | a :: b :: rest =>
      match hexval a, hexval b with
      | Some x, Some y => (16 * x + y) :: rest
      | _, _ => percent :: item
      end
  | _ => percent :: item
  end.

(** [unquote_to_bytes] on an ASCII string. *)
Definition unquote_to_bytes (s : pstr) : list N :=
  match split percent s with
  | [] => []
  | first :: items => first ++ concat (map unquote_item items)
  end.

Definition replacement_char : N := 65533.  (* U+FFFD *)

Definition is_cont (b : N) : bool := (128 <=? b) && (b <? 192).

(** The UTF-8 decoder: the code points of the well-formed sequences, and
    [None] for every ill-formed span (an invalid start byte, the bytes
    before an invalid continuation byte, or a sequence the data ends in). *)
Fixpoint utf8_scan (bs : list N) : list (option N) :=
  match bs with
  | [] => []
  | ch :: t1 =>
      if ch <? 128 then Some ch :: utf8_scan t1
      else if ch <? 194 then None :: utf8_scan t1
      else if ch <? 224 then
        match t1 with
        | [] => [None]
        | ch2 :: t2 =>
            if is_cont ch2
            then Some ((ch - 192) * 64 + (ch2 - 128)) :: utf8_scan t2
            else None :: utf8_scan t1
        end
      else if ch <? 240 then
        match t1 with
        | [] => [None]
        | ch2 :: t2 =>
            if negb (is_cont ch2)
               || (if ch2 <? 160 then ch =? 224 else ch =? 237)
            then None :: utf8_scan t1
            else
              match t2 with
              | [] => [None]
              | ch3 :: t3 =>
                  if is_cont ch3
                  then Some ((ch - 224) * 4096 + (ch2 - 128) * 64 + (ch3 - 128))
                         :: utf8_scan t3
                  else None :: utf8_scan t2
              end
        end
      else if ch <? 245 then
        match t1 with
        | [] => [None]
        | ch2 :: t2 =>
            if negb (is_cont ch2)
               || (if ch2 <? 144 then ch =? 240 else ch =? 244)
            then None :: utf8_scan t1
            else
              match t2 with
              | [] => [None]
              | ch3 :: t3 =>
                  if negb (is_cont ch3)
                  then None :: utf8_scan t2
                  else
                    match t3 with
                    | [] => [None]
                    | ch4 :: t4 =>
                        if is_cont ch4
                        then Some ((ch - 240) * 262144 + (ch2 - 128) * 4096
                                    + (ch3 - 128) * 64 + (ch4 - 128))
                               :: utf8_scan t4
                        else None :: utf8_scan t3
                    end
              end
        end
      else None :: utf8_scan t1
  end.

(** [bytes.decode('utf-8', 'replace')]: every ill-formed span becomes one
    U+FFFD. *)
Definition utf8_decode (bs : list N) : pstr :=
  map (default replacement_char) (utf8_scan bs).

(** [bytes.decode()]: [errors='strict'] raises on the first ill-formed
    span. *)
Definition utf8_decode_strict (bs : list N) : result pstr :=
  match mapM id (utf8_scan bs) with
  | Some s => inl s
  | None => inr UnicodeDecodeError
  end.

(** [_generate_unquoted_parts], joined: the maximal ASCII runs are
    percent-decoded and read as UTF-8; the characters between them stay.
    [run] is the ASCII run read so far. *)
Fixpoint unquote_parts (run : pstr) (s : pstr) : pstr :=
  match s with
  | [] => utf8_decode (unquote_to_bytes run)
  | c :: s' =>
      if c <? 128 then unquote_parts (run ++ [c]) s'
      else utf8_decode (unquote_to_bytes run) ++ c :: unquote_parts [] s'
  end.

(** [urllib.parse.unquote(string)] *)
Definition unquote (s : pstr) : pstr :=
  if negb (contains percent s) then s else unquote_parts [] s.

(** [re.compile(r'\\u([0-9a-fA-F]{4})').sub(replace_unicode, s)] with
    [replace_unicode(m) = chr(int(m.group(1), 16))]. *)
Fixpoint unicode_sub (s : pstr) : pstr :=
  match s with
  | [] => []
  | c :: t =>
      match t with
      | u :: h1 :: h2 :: h3 :: h4 :: rest =>
          if (c =? backslash) && (u =? 117)
          then match hexval h1, hexval h2, hexval h3, hexval h4 with
               | Some a, Some b, Some d, Some e =>
                   (4096 * a + 256 * b + 16 * d + e) :: unicode_sub rest
               | _, _, _, _ => c :: unicode_sub t
               end
          else c :: unicode_sub t
      | _ => c :: unicode_sub t
      end
  end.

End Urllib.

(** ** [workspace_config.py] *)

Module WorkspaceConfig.
Import PyStr.

(** The two attributes [__init__] sets.  [PROVIDER] is the lower-cased
    value of [SANDBOX_PROVIDER]. *)
Record t : Type := mk {
  WORKSPACE_ROOT : pstr;
  PROVIDER : pstr;
}.

(** [__init__]: the environment's workspace root (default [/workspace])
    without its trailing slashes, the lower-cased provider (default
    [daytona]). *)
Definition init (env_root env_provider_lower : option pstr) : t :=
  {| WORKSPACE_ROOT := rstrip slash (default (py "/workspace") env_root);
     PROVIDER := default (py "daytona") env_provider_lower |}.

Section Methods.
Variable self : t.

Definition get_project_workspace_path (project_id : pstr) : pstr :=
  if eqb (PROVIDER self) (py "daytona")
  then WORKSPACE_ROOT self
  else WORKSPACE_ROOT self.

Definition get_project_directory_path (project_id : pstr) : pstr :=
  if eqb (PROVIDER self) (py "daytona")
  then WORKSPACE_ROOT self ++ [slash] ++ project_id
  else WORKSPACE_ROOT self.

Definition get_file_upload_path (project_id filename : pstr) : pstr :=
  get_project_directory_path project_id ++ [slash] ++ filename.

Definition normalize_path (path project_id : pstr) : pstr :=
  let path := lstrip slash path in
  let workspace_prefix := lstrip slash (WORKSPACE_ROOT self) in
  let path :=
    if startswith workspace_prefix path
    then lstrip slash (drop (length workspace_prefix) path)
    else path in
  let project_prefix := project_id ++ [slash] in
  if startswith project_prefix path
  then drop (length project_prefix) path
  else path.

Definition resolve_absolute_path (relative_path project_id : pstr) : pstr :=
  let normalized := normalize_path relative_path project_id in
  let project_dir := get_project_directory_path project_id in
  if truthy normalized
  then project_dir ++ [slash] ++ normalized
  else project_dir.

End Methods.
End WorkspaceConfig.

(** ** [api.py]: path normalisation *)

Module Api.
Import PyStr.

(** The [while] loop of [_fix_path_duplications]: the current part is kept;
    when the next part equals it, both are passed over. *)
Fixpoint deduplicate (parts : list pstr) : list pstr :=
  match parts with
  | [] => []
  | current_part :: rest =>
      current_part ::
        match rest with
        | next :: rest' =>
            if eqb next current_part then deduplicate rest'
            else deduplicate rest
        | [] => []
        end
  end.

(** The non-empty parts of the path, backslashes read as slashes. *)
Definition path_parts (path : pstr) : list pstr :=
  let normalized_path := strip slash (replace_char backslash slash path) in
  filter (fun part => truthy part = true) (split slash normalized_path).

(** [_fix_path_duplications]: a path with fewer than two parts is returned
    as it is; otherwise a slash and the parts the loop keeps, joined by
    slashes.  Nothing in it raises on a [str]. *)
Definition _fix_path_duplications (path : pstr) (project_id : option pstr) : pstr :=
  let parts := path_parts path in
  if (length parts <? 2)%nat then path
  else
    let deduplicated_parts := deduplicate parts in
    match deduplicated_parts with
    | [] => [slash]
    | _ => [slash] ++ join [slash] deduplicated_parts
    end.

(** [normalize_path]: URL-decoding, the textual escapes, the duplicated
    parts, and with a project id the normalisation of [cfg], the module's
    [workspace_config].  No step raises on a [str], so the [except] branches
    that return the original path are not reached. *)
Definition normalize_path (cfg : WorkspaceConfig.t)
    (path : pstr) (project_id : option pstr) : pstr :=
  let decoded_path := Urllib.unquote path in
  let decoded_path := Urllib.unicode_sub decoded_path in
  let decoded_path := _fix_path_duplications decoded_path project_id in
  match project_id with
  | Some pid =>
      if truthy pid
      then WorkspaceConfig.normalize_path cfg decoded_path pid
      else decoded_path
  | None => decoded_path
  end.

End Api.

(** ** [pathlib]: pure paths and [resolve]

    POSIX flavour.  The file system of this development has no symbolic
    links, so [os.path.realpath] is the lexical resolution of [.] and [..]
    against the current directory. *)

Module Pathlib.
Import PyStr.

(** A parsed path: the root (empty, one slash or two slashes) and the
    parts after it, none of them empty or a single dot. *)
Record Path : Type := mkPath {
  root : pstr;
  parts : list pstr;
}.

#[export] Instance Path_eq_dec : EqDecision Path.
Proof. solve_decision. Defined.

(** [posixpath.splitroot]: exactly two leading slashes are a root of their
    own, one or three and more are the root of one slash. *)
Definition splitroot (p : pstr) : pstr * pstr :=
  match p with
  | a :: p1 =>
      if a =? slash then
        match p1 with
        | b :: p2 =>
            if b =? slash then
              match p2 with
              | c :: _ => if c =? slash then ([slash], p1)
                          else ([slash; slash], p2)
              | [] => ([slash; slash], p2)
              end
            else ([slash], p1)
        | [] => ([slash], p1)
        end
      else ([], p)
  | [] => ([], p)
  end.

Definition is_name (x : pstr) : bool := truthy x && negb (eqb x [dot]).

(** [Path(s)] *)
Definition parse (s : pstr) : Path :=
  let '(r, rel) := splitroot s in
  {| root := r; parts := filter (fun x => is_name x = true) (split slash rel) |}.

(** [str(p)] *)
Definition str (p : Path) : pstr :=
  match root p ++ join [slash] (parts p) with
  | [] => [dot]
  | s => s
  end.

Definition is_absolute (p : Path) : bool := truthy (root p).

(** [p.parent] *)
Definition parent (p : Path) : Path :=
  {| root := root p; parts := removelast (parts p) |}.

(** [posixpath.join(a, b)] *)
Definition os_path_join (a b : pstr) : pstr :=
  if startswith [slash] b then b
  else if negb (truthy a) || (match last a with Some c => c =? slash | None => false end)
  then a ++ b
  else a ++ [slash] ++ b.

(** [p / s] *)
Definition joinpath (p : Path) (s : pstr) : Path :=
  parse (os_path_join (str p) s).

(** The loop of [posixpath._joinrealpath] and [normpath] without links:
    [stack] holds the resolved names, innermost first. *)
Fixpoint lexical (stack : list pstr) (names : list pstr) : list pstr :=
  match names with
  | [] => rev stack
  | name :: rest =>
      if negb (truthy name) || eqb name [dot] then lexical stack rest
      else if eqb name [dot; dot] then lexical (tail stack) rest
      else lexical (name :: stack) rest
  end.

(** [os.path.realpath(s)] in the directory [cwd] (its names, outermost
    first). *)
Definition realpath (cwd : list pstr) (s : pstr) : pstr :=
  let start := if startswith [slash] s then [] else rev cwd in
  [slash] ++ join [slash] (lexical start (split slash s)).

(** [p.resolve()]: [os.lstat] refuses a path with a NUL character. *)
Definition resolve (cwd : list pstr) (p : Path) : Path + exn :=
  if contains 0 (str p) then inr (ValueError "embedded null byte")
  else inl (parse (realpath cwd (str p))).

End Pathlib.

Module WorkspaceSafety.
Import PyStr Pathlib WorkspaceConfig.

(** [WorkspaceConfig.is_path_safe]; [cwd] is the current directory of the
    process. *)
Definition is_path_safe (self : WorkspaceConfig.t) (cwd : list pstr)
    (path project_id : pstr) : bool :=
  let abs_path := resolve_absolute_path self path project_id in
  let project_dir := get_project_directory_path self project_id in
  match resolve cwd (parse abs_path) with
  | inl abs_path_obj =>
      match resolve cwd (parse project_dir) with
      | inl project_dir_obj =>
          startswith (str project_dir_obj) (str abs_path_obj)
      | inr _ => false
      end
  | inr _ => false
  end.

(** Containment of one resolved path in another: the names of the
    directory are the first names of the path. *)
Definition lies_within (dir p : Path) : bool :=
  eqb (root dir) (root p)
  && bool_decide (parts dir `prefix_of` parts p).

(** The canonical form [is_path_safe] compares: [Path(s).resolve()]
    for a path without NUL. *)
Definition canonical (cwd : list pstr) (s : pstr) : Path :=
  parse (realpath cwd (str (parse s))).

End WorkspaceSafety.

(** ** The file system

    A tree without symbolic links: the nodes by their canonical path (the
    names from the root, outermost first).  Permission bits are not modelled:
    the process may read and write every node. *)

Module FS.
Import PyStr Pathlib.

Definition bytes : Type := list Byte.byte.

#[export] Instance byte_eq_dec : EqDecision Byte.byte := Byte.byte_eq_dec.

Inductive node : Type :=
| File (data : bytes) (st_mtime : Z)
| Dir (st_mtime : Z).

#[export] Instance node_eq_dec : EqDecision node.
Proof. solve_decision. Defined.

Record t : Type := mk {
  tree : gmap (list pstr) node;
  cwd : list pstr;     (* current directory of the process *)
  clock : Z;           (* the time new nodes are stamped with *)
}.

Definition with_tree (fs : t) (tr : gmap (list pstr) node) : t :=
  {| tree := tr; cwd := cwd fs; clock := clock fs |}.

Definition is_dir_node (o : option node) : bool :=
  match o with Some (Dir _) => true | _ => false end.

Definition is_file_node (o : option node) : bool :=
  match o with Some (File _ _) => true | _ => false end.

(** What [os.stat] reports of a node. *)
Record stat_result : Type := mkStat {
  st_is_dir : bool;
  st_size : Z;
  st_mtime_of : Z;
}.

Definition dir_st_size : Z := 4096.

Definition stat_of (n : node) : stat_result :=
  match n with
  | File data m => mkStat false (Z.of_nat (length data)) m
  | Dir m => mkStat true dir_st_size m
  end.

(** One step of the kernel's path walk from the directory [cur]. *)
Definition step (cur : list pstr) (name : pstr) : list pstr :=
  if eqb name [dot; dot] then removelast cur else cur ++ [name].

(** The path walk: every name is looked up in a directory that exists. *)
Fixpoint walk (tr : gmap (list pstr) node) (cur : list pstr)
    (names : list pstr) : result (list pstr) :=
  match names with
  | [] => inl cur
  | name :: rest =>
      match tr !! cur with
      | Some (Dir _) => walk tr (step cur name) rest
      | Some (File _ _) => inr NotADirectoryError
      | None => inr FileNotFoundError
      end
  end.

(** Where the walk of a path with the root [r] starts. *)
Definition start_of (fs : t) (r : pstr) : list pstr :=
  if truthy r then [] else cwd fs.

(** The canonical path a [Path] denotes. *)
Definition locate (fs : t) (p : Path) : result (list pstr) :=
  walk (tree fs) (start_of fs (root p)) (parts p).

(** [os.stat(p)] *)
Definition os_stat (fs : t) (p : Path) : result stat_result :=
  match locate fs p with
  | inl c => match tree fs !! c with
             | Some n => inl (stat_of n)
             | None => inr FileNotFoundError
             end
  | inr e => inr e
  end.

(** [p.exists()]: a missing node or a file on the way is [False]. *)
Definition exists_ (fs : t) (p : Path) : bool :=
  match os_stat fs p with inl _ => true | inr _ => false end.

(** [p.is_dir()] *)
Definition is_dir (fs : t) (p : Path) : bool :=
  match os_stat fs p with inl st => st_is_dir st | inr _ => false end.


(** The names in the directory at [c], in the order the system lists them. *)
Definition children (tr : gmap (list pstr) node) (c : list pstr) : list pstr :=
  omap (fun kv : list pstr * node =>
          match last kv.1 with
          | Some name => if bool_decide (kv.1 = c ++ [name]) then Some name else None
          | None => None
          end)
       (map_to_list tr).

(** [os.listdir(p)] *)
Definition os_listdir (fs : t) (p : Path) : result (list pstr) :=
  match locate fs p with
  | inl c => match tree fs !! c with
             | Some (Dir _) => inl (children (tree fs) c)
             | Some (File _ _) => inr NotADirectoryError
             | None => inr FileNotFoundError
             end
  | inr e => inr e
  end.

(** [list(p.iterdir())]: the children as paths under [p]. *)
Definition iterdir (fs : t) (p : Path) : result (list Path) :=
  match os_listdir fs p with
  | inl names => inl (map (fun name => mkPath (root p) (parts p ++ [name])) names)
  | inr e => inr e
  end.

(** [os.mkdir(p)] *)
Definition os_mkdir (fs : t) (p : Path) : result t :=
  match locate fs p with
  | inl c => match tree fs !! c with
             | Some _ => inr FileExistsError
             | None => inl (with_tree fs (<[c := Dir (clock fs)]> (tree fs)))
             end
  | inr e => inr e
  end.

(** [p.mkdir(parents=False, exist_ok=True)] *)
Definition mkdir_exist_ok (fs : t) (p : Path) : result unit * t :=
  match os_mkdir fs p with
  | inl fs' => (inl tt, fs')
  | inr FileNotFoundError => (inr FileNotFoundError, fs)
  | inr e => if is_dir fs p then (inl tt, fs) else (inr e, fs)
  end.

(** [p.mkdir(parents=True, exist_ok=True)] for the path with root [r] and
    the parts [rev rparts]: when a parent is missing, the parent is made
    the same way and [os.mkdir] is tried once more. *)
Fixpoint mkdir_parents (r : pstr) (rparts : list pstr) (fs : t) : result unit * t :=
  let self := mkPath r (rev rparts) in
  match os_mkdir fs self with
  | inl fs' => (inl tt, fs')
  | inr FileNotFoundError =>
      match rparts with
      | [] => (inr FileNotFoundError, fs)
      | _ :: rparent =>
          match mkdir_parents r rparent fs with
          | (inl _, fs1) => mkdir_exist_ok fs1 self
          | (inr e, fs1) => (inr e, fs1)
          end
      end
  | inr e => if is_dir fs self then (inl tt, fs) else (inr e, fs)
  end.

Definition mkdir (fs : t) (p : Path) : result unit * t :=
  mkdir_parents (root p) (rev (parts p)) fs.

(** [p.read_bytes()] *)
Definition read_bytes (fs : t) (p : Path) : result bytes :=
  match locate fs p with
  | inl c => match tree fs !! c with
             | Some (File data _) => inl data
             | Some (Dir _) => inr IsADirectoryError
             | None => inr FileNotFoundError
             end
  | inr e => inr e
  end.

(** [p.write_bytes(data)]: the file is made or replaced; its directory
    must exist. *)
Definition write_bytes (fs : t) (p : Path) (data : bytes) : result Z * t :=
  match locate fs p with
  | inl c => match tree fs !! c with
             | Some (Dir _) => (inr IsADirectoryError, fs)
             | _ => (inl (Z.of_nat (length data)),
                     with_tree fs (<[c := File data (clock fs)]> (tree fs)))
             end
  | inr e => (inr e, fs)
  end.





End FS.

(** ** The operating system around the local sandbox

    What a spawned program does is not the sandbox's code: a [script] is the
    course of one child process, and a [Platform] says which script a command
    starts, what [venv.EnvBuilder.create] writes, which name
    [tempfile.NamedTemporaryFile] picks, and what [textwrap.dedent] and the
    text encoding of files are. *)

Module OS.
Import PyStr Pathlib.

Record script : Type := mkScript {
  run_time : option Z;   (* seconds until exit; [None]: it never exits *)
  returncode : Z;
  out : FS.bytes;
  err : FS.bytes;
  effect : FS.t -> FS.t;              (* what it has written when it exits *)
  effect_until : Z -> FS.t -> FS.t;   (* what it has written when killed *)
}.

Inductive status : Type :=
| Exited (code : Z)
| Killed.

(** One entry of the process table. *)
Record process : Type := mkProcess {
  command : list pstr;
  directory : pstr;
  final : status;
}.

Record t : Type := mk {
  fs : FS.t;
  processes : list process;   (* the children spawned so far, oldest first *)
}.

Definition with_fs (os : t) (f : FS.t) : t :=
  {| fs := f; processes := processes os |}.

Record Platform : Type := mkPlatform {
  spawn_shell : pstr -> pstr -> pstr -> FS.t -> result script;
  spawn_exec : list pstr -> pstr -> FS.t -> result script;
  venv_create : Path -> FS.t -> result unit * FS.t;
  temp_name : Path -> pstr -> FS.t -> pstr;
  dedent : pstr -> pstr;
  encode : pstr -> FS.bytes;
}.

(** [asyncio.wait_for(proc.communicate(), timeout)] raises [TimeoutError]
    when the child has not exited after [timeout] seconds. *)
Definition exceeds (sc : script) (timeout : Z) : bool :=
  match run_time sc with
  | None => true
  | Some d => (timeout <? d)%Z
  end.

(** [bs.decode()] *)
Definition decode (bs : FS.bytes) : result pstr :=
  Urllib.utf8_decode_strict (map Byte.to_N bs).

End OS.
(** ** [providers/local_process.py] *)

Module LocalProcess.
Import PyStr Pathlib.

(** [_FileInfo] *)
Record _FileInfo : Type := mkFileInfo {
  name : pstr;
  is_dir : bool;
  size : Z;
  mod_time : Z;
}.

(** *** [_LocalFS] *)

Record _LocalFS : Type := mkLocalFS {
  fs_root : Path;   (* [self.root] *)
}.

Definition _LocalFS_init (workspace_root : pstr) : _LocalFS :=
  {| fs_root := parse workspace_root |}.

Section LocalFS.
Variable self : _LocalFS.

Definition _abs (path : pstr) : Path :=
  let p := parse path in
  if is_absolute p then p else joinpath (fs_root self) path.

(** The name of an entry: every occurrence of the root and a slash is
    taken out of its path. *)
Definition relative_name (entry : Path) : pstr :=
  replace (rstrip slash (str (fs_root self)) ++ [slash]) [] (str entry).

Definition file_info (fs : FS.t) (entry : Path) : result _FileInfo :=
  match FS.os_stat fs entry with
  | inl st =>
      inl {| name := relative_name entry;
             is_dir := FS.is_dir fs entry;
             size := FS.st_size st;
             mod_time := FS.st_mtime_of st |}
  | inr e => inr e
  end.

Definition get_file_info (path : pstr) (fs : FS.t) : result _FileInfo :=
  file_info fs (_abs path).

(** The [for] loop of [list_files]: it stops at the first entry whose
    [stat] raises. *)
Fixpoint collect_infos (fs : FS.t) (entries : list Path) : result (list _FileInfo) :=
  match entries with
  | [] => inl []
  | entry :: rest =>
      match file_info fs entry with
      | inl info =>
          match collect_infos fs rest with
          | inl infos => inl (info :: infos)
          | inr e => inr e
          end
      | inr e => inr e
      end
  end.

Definition list_files (base : pstr) (fs : FS.t) : result (list _FileInfo) :=
  let basep := _abs base in
  if negb (FS.exists_ fs basep) then inl []
  else
    match FS.iterdir fs basep with
    | inl entries => collect_infos fs entries
    | inr e => inr e
    end.

Definition download_file (path : pstr) (fs : FS.t) : result FS.bytes :=
  FS.read_bytes fs (_abs path).

Definition upload_file (data : FS.bytes) (path : pstr) (fs : FS.t)
  : result unit * FS.t :=
  let p := _abs path in
  bind (FS.mkdir fs (parent p)) (fun _ fs1 =>
  bind (FS.write_bytes fs1 p data) (fun _ fs2 =>
  (inl tt, fs2))).

End LocalFS.

(** *** [LocalProcessSandbox] *)

(** The fields of the dataclass.  [_root], [_venvs] and [fs] are set from
    [workspace_root] by [__post_init__] and never assigned again. *)
Record LocalProcessSandbox : Type := mkSandbox {
  id : pstr;
  workspace_root : pstr;
  state : pstr;
}.

#[export] Instance LocalProcessSandbox_eq_dec : EqDecision LocalProcessSandbox.
Proof. solve_decision. Defined.

Definition _root (self : LocalProcessSandbox) : Path := parse (workspace_root self).
Definition _venvs (self : LocalProcessSandbox) : Path := joinpath (_root self) (py ".venvs").
Definition fs_of (self : LocalProcessSandbox) : _LocalFS :=
  _LocalFS_init (workspace_root self).

(** The constructor with [__post_init__]: the workspace root and its
    [.venvs] directory are made. *)
Definition create (sandbox_id : pstr) (root : pstr) (fs : FS.t)
  : result LocalProcessSandbox * FS.t :=
  let self := {| id := sandbox_id; workspace_root := root; state := py "RUNNING" |} in
  bind (FS.mkdir fs (_root self)) (fun _ fs1 =>
  bind (FS.mkdir fs1 (_venvs self)) (fun _ fs2 =>
  (inl self, fs2))).

(** [destroy] *)
Definition destroy (self : LocalProcessSandbox) : bool * LocalProcessSandbox :=
  (true, {| id := id self; workspace_root := workspace_root self;
            state := py "ARCHIVED" |}).

(** [get_preview_link]: a link without [url] and [token]. *)
Definition get_preview_link (self : LocalProcessSandbox) (port : Z)
  : option pstr * option pstr := (None, None).

Section Engine.
Variable P : OS.Platform.
Variable SHELL_PATH : pstr.
Variable self : LocalProcessSandbox.

Definition _venv_path (project_id : pstr) : Path :=
  joinpath (_venvs self) project_id.

Definition _ensure_venv (project_id : pstr) (fs : FS.t) : result Path * FS.t :=
  let v := _venv_path project_id in
  if negb (FS.exists_ fs (joinpath v (py "pyvenv.cfg")))
  then bind (OS.venv_create P v fs) (fun _ fs1 => (inl v, fs1))
  else (inl v, fs).

Definition _bin (venv_dir : Path) (exe : pstr) : pstr :=
  str (joinpath (joinpath venv_dir (py "bin")) exe).

Definition timeout_result : dict :=
  {[ "code"%string := VInt 124; "stdout"%string := VStr [];
     "stderr"%string := VStr (py "timeout") ]}.

(** The child has been started: wait for it, kill it when the budget is
    over, and build the result. *)
Definition communicate (sc : OS.script) (argv : list pstr) (dir : pstr)
    (timeout : Z) (extra : dict) (os : OS.t) : result dict * OS.t :=
  if OS.exceeds sc timeout then
    (inl (timeout_result ∪ extra),
     {| OS.fs := OS.effect_until sc timeout (OS.fs os);
        OS.processes := OS.processes os ++ [OS.mkProcess argv dir OS.Killed] |})
  else
    let os' :=
      {| OS.fs := OS.effect sc (OS.fs os);
         OS.processes :=
           OS.processes os ++ [OS.mkProcess argv dir (OS.Exited (OS.returncode sc))] |} in
    match OS.decode (OS.out sc) with
    | inr e => (inr e, os')
    | inl o =>
        match OS.decode (OS.err sc) with
        | inr e => (inr e, os')
        | inl e =>
            (inl ({[ "code"%string := VInt (OS.returncode sc);
                     "stdout"%string := VStr o;
                     "stderr"%string := VStr e ]} ∪ extra), os')
        end
    end.

(** The command line of [exec]: a list of words is joined with spaces. *)
Definition command_line (cmd : pstr + list pstr) : pstr :=
  match cmd with inl s => s | inr l => join (py " ") l end.

(** [cwd or self.workspace_root] *)
Definition working_directory (cwd : option pstr) : pstr :=
  match cwd with
  | Some d => if truthy d then d else workspace_root self
  | None => workspace_root self
  end.

(** [exec(cmd, cwd, timeout)] *)
Definition exec (cmd : pstr + list pstr) (cwd : option pstr) (timeout : Z)
    (os : OS.t) : result dict * OS.t :=
  let cmd := command_line cmd in
  let dir := working_directory cwd in
  match OS.spawn_shell P SHELL_PATH cmd dir (OS.fs os) with
  | inr e => (inr e, os)
  | inl sc => communicate sc [SHELL_PATH; py "-c"; cmd] dir timeout ∅ os
  end.

(** [inst["code"] != 0] *)
Definition nonzero (v : value) : bool :=
  match v with
  | VInt z => negb (z =? 0)%Z
  | VBool b => b
  | _ => true
  end.

(** [d[k]] *)
Definition item (d : dict) (k : string) : result value :=
  match d !! k with Some v => inl v | None => inr (KeyError k) end.

Definition on_fs {A : Type} (f : FS.t -> result A * FS.t) (os : OS.t)
  : result A * OS.t :=
  let '(r, fs') := f (OS.fs os) in (r, OS.with_fs os fs').

(** The second half of [run_python]: the script is written to a fresh
    file of the working directory and run by the interpreter. *)
Definition run_script (code py_bin : pstr) (wd : Path) (timeout : Z)
    (os : OS.t) : result dict * OS.t :=
  let script := OS.temp_name P wd (py ".py") (OS.fs os) in
  bind (on_fs (fun fs => FS.write_bytes fs (parse script)
                           (OS.encode P (OS.dedent P code))) os) (fun _ os1 =>
  match OS.spawn_exec P [py_bin; script] (str wd) (OS.fs os1) with
  | inr e => (inr e, os1)
  | inl sc =>
      communicate sc [py_bin; script] (str wd) timeout
        {[ "script"%string := VStr script; "workdir"%string := VStr (str wd) ]} os1
  end).

(** The first half of [run_python]: the virtual environment is there,
    the interpreter and the working directory are chosen, the working
    directory is made. *)
Definition prepare (project_id : pstr) (workdir python_bin : option pstr)
    (os : OS.t) : result (pstr * Path) * OS.t :=
  bind (on_fs (_ensure_venv project_id) os) (fun venv_dir os1 =>
  let py_bin := match python_bin with
                | Some b => if truthy b then b else _bin venv_dir (py "python")
                | None => _bin venv_dir (py "python")
                end in
  let wd := match workdir with
            | Some d => if truthy d then parse d else joinpath (_root self) project_id
            | None => joinpath (_root self) project_id
            end in
  bind (on_fs (fun fs => FS.mkdir fs wd) os1) (fun _ os2 =>
  (inl (py_bin, wd), os2))).

(** [" ".join([*pip, *requirements])] *)
Definition pip_command (py_bin : pstr) (requirements : list pstr) : pstr :=
  join (py " ")
    ([py_bin; py "-m"; py "pip"; py "install";
      py "--disable-pip-version-check"; py "--no-input"] ++ requirements).

Definition run_python (code project_id : pstr) (requirements : option (list pstr))
    (workdir : option pstr) (timeout : Z) (python_bin : option pstr)
    (os : OS.t) : result dict * OS.t :=
  bind (prepare project_id workdir python_bin os) (fun '(py_bin, wd) os2 =>
  match requirements with
  | Some ((_ :: _) as reqs) =>
      bind (exec (inl (pip_command py_bin reqs)) (Some (str wd)) timeout os2)
           (fun inst os3 =>
      match item inst "code" with
      | inr e => (inr e, os3)
      | inl c =>
          if nonzero c then
            match item inst "stdout", item inst "stderr" with
            | inl o, inl e =>
                (inl {[ "code"%string := c; "stdout"%string := o;
                        "stderr"%string := e ]}, os3)
            | inr x, _ => (inr x, os3)
            | _, inr x => (inr x, os3)
            end
          else run_script code py_bin wd timeout os3
      end)
  | _ => run_script code py_bin wd timeout os2
  end).

End Engine.
End LocalProcess.

(** ** The metadata store

    The [projects] table: one row per project, whose [sandbox] column is
    [NULL] or a JSON object. *)

Module DB.

Record row : Type := mkRow {
  sandbox : option dict;
}.

Record t : Type := mk {
  projects : gmap pstr row;
  reachable : bool;         (* [thread_manager.db.client] yields a client *)
  accepts_updates : bool;   (* an [update] changes the rows it selects *)
}.

(** [client.table('projects').select('*').eq('project_id', pid).execute().data] *)
Definition select (db : t) (pid : pstr) : list row :=
  match projects db !! pid with Some r => [r] | None => [] end.

(** [client.table('projects').update({'sandbox': info}).eq('project_id', pid)
    .execute().data]: the rows changed. *)
Definition update (db : t) (pid : pstr) (info : dict) : list row * t :=
  match projects db !! pid with
  | Some _ =>
      if accepts_updates db
      then ([mkRow (Some info)],
            {| projects := <[pid := mkRow (Some info)]> (projects db);
               reachable := reachable db;
               accepts_updates := accepts_updates db |})
      else ([], db)
  | None => ([], db)
  end.

End DB.

(** ** The remote platform

    The client of the container platform is used through its calls only; its
    state [R] and what the calls do are the platform's. *)

Module Daytona.

Inductive SandboxState : Type :=
| STARTED | STOPPED | ARCHIVED | STARTING | ERROR.

#[export] Instance SandboxState_eq_dec : EqDecision SandboxState.
Proof. solve_decision. Defined.

(** The sandbox object of the client. *)
Record Sandbox : Type := mkSandbox {
  id : pstr;
  state : SandboxState;
}.

#[export] Instance Sandbox_eq_dec : EqDecision Sandbox.
Proof. solve_decision. Defined.

(** What [get_preview_link] returns: its attributes and its [str]. *)
Record Link : Type := mkLink {
  url : option pstr;
  token : option pstr;
  repr : pstr;
}.

Record Client (R : Type) : Type := mkClient {
  get : pstr -> R -> result Sandbox * R;
  start : Sandbox -> R -> result unit * R;
  create : pstr -> option pstr -> R -> result Sandbox * R;
  delete : Sandbox -> R -> result unit * R;
  create_session : Sandbox -> pstr -> R -> result unit * R;
  execute_session_command : Sandbox -> pstr -> pstr -> R -> result unit * R;
  get_preview_link : Sandbox -> Z -> R -> result Link * R;
}.

Arguments get {R}. Arguments start {R}. Arguments create {R}.
Arguments delete {R}. Arguments create_session {R}.
Arguments execute_session_command {R}. Arguments get_preview_link {R}.

End Daytona.

(** ** [sandbox.py] and [tool_base.py] *)

Module Lifecycle.
Import PyStr Pathlib.

(** A sandbox handle: the local sandbox object (by reference) or the
    platform's sandbox object. *)
Inductive handle : Type :=
| Local (ref : nat)
| Remote (sb : Daytona.Sandbox).

#[export] Instance handle_eq_dec : EqDecision handle.
Proof. pose proof Daytona.Sandbox_eq_dec. solve_decision. Defined.

Section World.
Context {R : Type}.
Variable D : Daytona.Client R.
Variable cfg : WorkspaceConfig.t.   (* [workspace_config], and [PROVIDER] *)
Variable uuid4 : nat -> pstr.       (* the identifiers [uuid.uuid4] draws *)

Record World : Type := mkWorld {
  fs : FS.t;
  heap : gmap nat LocalProcess.LocalProcessSandbox;
  db : DB.t;
  remote : R;
  drawn : nat;   (* how many identifiers have been drawn *)
}.

Definition PROVIDER : pstr := WorkspaceConfig.PROVIDER cfg.

Definition with_fs (w : World) (f : FS.t) : World :=
  {| fs := f; heap := heap w; db := db w; remote := remote w; drawn := drawn w |}.
Definition with_db (w : World) (d : DB.t) : World :=
  {| fs := fs w; heap := heap w; db := d; remote := remote w; drawn := drawn w |}.
Definition with_remote (w : World) (r : R) : World :=
  {| fs := fs w; heap := heap w; db := db w; remote := r; drawn := drawn w |}.

Definition on_remote {A : Type} (f : R -> result A * R) (w : World)
  : result A * World :=
  let '(r, x) := f (remote w) in (r, with_remote w x).

Definition on_fs {A : Type} (f : FS.t -> result A * FS.t) (w : World)
  : result A * World :=
  let '(r, x) := f (fs w) in (r, with_fs w x).

(** A new [LocalProcessSandbox] object. *)
Definition new_local (sandbox_id root : pstr) (w : World) : result handle * World :=
  bind (on_fs (LocalProcess.create sandbox_id root) w) (fun obj w1 =>
  let ref := fresh (dom (heap w1)) in
  (inl (Local ref),
   {| fs := fs w1; heap := <[ref := obj]> (heap w1); db := db w1;
      remote := remote w1; drawn := drawn w1 |})).

(** [start_supervisord_session] of the remote mode. *)
Definition start_supervisord_session (sb : Daytona.Sandbox) (w : World)
  : result unit * World :=
  let session_id := py "supervisord-session" in
  bind (on_remote (Daytona.create_session D sb session_id) w) (fun _ w1 =>
  on_remote (Daytona.execute_session_command D sb session_id
    (py "exec /usr/bin/supervisord -n -c /etc/supervisor/conf.d/supervisord.conf")) w1).

(** [get_or_start_sandbox]; the module defines it for the two providers
    and cannot be imported with another one. *)
Definition get_or_start_sandbox (sandbox_id : pstr) (w : World)
  : result handle * World :=
  if eqb PROVIDER (py "daytona") then
    bind (on_remote (Daytona.get D sandbox_id) w) (fun sandbox w1 =>
    match Daytona.state sandbox with
    | Daytona.ARCHIVED | Daytona.STOPPED =>
        bind (on_remote (Daytona.start D sandbox) w1) (fun _ w2 =>
        bind (on_remote (Daytona.get D sandbox_id) w2) (fun sandbox' w3 =>
        bind (start_supervisord_session sandbox' w3) (fun _ w4 =>
        (inl (Remote sandbox'), w4))))
    | _ => (inl (Remote sandbox), w1)
    end)
  else if eqb PROVIDER (py "local_process") then
    new_local sandbox_id (WorkspaceConfig.get_project_workspace_path cfg sandbox_id) w
  else (inr (RuntimeError "Unknown SANDBOX_PROVIDER"), w).

Definition create_sandbox (password : pstr) (project_id : option pstr) (w : World)
  : result handle * World :=
  if eqb PROVIDER (py "daytona") then
    let labels := match project_id with
                  | Some p => if truthy p then Some p else None
                  | None => None
                  end in
    bind (on_remote (Daytona.create D password labels) w) (fun sandbox w1 =>
    bind (start_supervisord_session sandbox w1) (fun _ w2 =>
    (inl (Remote sandbox), w2)))
  else if eqb PROVIDER (py "local_process") then
    let sid := match project_id with
               | Some p => if truthy p then p else py "default"
               | None => py "default"
               end in
    new_local sid (WorkspaceConfig.get_project_workspace_path cfg sid) w
  else (inr (RuntimeError "Unknown SANDBOX_PROVIDER"), w).

Definition delete_sandbox (sandbox_id : pstr) (w : World) : result bool * World :=
  if eqb PROVIDER (py "daytona") then
    bind (on_remote (Daytona.get D sandbox_id) w) (fun sandbox w1 =>
    bind (on_remote (Daytona.delete D sandbox) w1) (fun _ w2 =>
    (inl true, w2)))
  else if eqb PROVIDER (py "local_process") then (inl true, w)
  else (inr (RuntimeError "Unknown SANDBOX_PROVIDER"), w).

(** *** [SandboxToolsBase] *)

(** [thread_manager]: whether it has a [db] attribute that is set. *)
Record ThreadManager : Type := mkThreadManager {
  has_db : bool;
}.

Record SandboxToolsBase : Type := mkTool {
  project_id : pstr;
  thread_manager : option ThreadManager;
  workspace_path : pstr;
  project_directory : pstr;
  _sandbox : option handle;
  _sandbox_id : value;
  _sandbox_pass : value;
}.

(** [__init__] *)
Definition init (pid : pstr) (tm : option ThreadManager) : SandboxToolsBase :=
  {| project_id := pid;
     thread_manager := tm;
     workspace_path := WorkspaceConfig.get_project_workspace_path cfg pid;
     project_directory := WorkspaceConfig.get_project_directory_path cfg pid;
     _sandbox := None;
     _sandbox_id := VNone;
     _sandbox_pass := VNone |}.

Definition set_ids (self : SandboxToolsBase) (sid pass : value) : SandboxToolsBase :=
  {| project_id := project_id self; thread_manager := thread_manager self;
     workspace_path := workspace_path self;
     project_directory := project_directory self;
     _sandbox := _sandbox self; _sandbox_id := sid; _sandbox_pass := pass |}.

Definition set_sandbox (self : SandboxToolsBase) (h : handle) : SandboxToolsBase :=
  {| project_id := project_id self; thread_manager := thread_manager self;
     workspace_path := workspace_path self;
     project_directory := project_directory self;
     _sandbox := Some h; _sandbox_id := _sandbox_id self;
     _sandbox_pass := _sandbox_pass self |}.

(** The identifier of a record is a string. *)
Definition as_str (v : value) : result pstr :=
  match v with
  | VStr s => inl s
  | _ => inr (Exception "sandbox id is not a string")
  end.

(** [h.id] *)
Definition handle_id (h : handle) (w : World) : pstr :=
  match h with
  | Remote sb => Daytona.id sb
  | Local ref => match heap w !! ref with
                 | Some obj => LocalProcess.id obj
                 | None => []
                 end
  end.

(** The client of the store: none without a thread manager with a [db],
    and none when asking for it raises. *)
Definition db_client (self : SandboxToolsBase) (w : World) : bool :=
  match thread_manager self with
  | Some tm => has_db tm && DB.reachable (db w)
  | None => false
  end.

(** [project_data.get('sandbox') or {}] *)
Definition sandbox_info_of (r : DB.row) : dict := default ∅ (DB.sandbox r).

(** The reconciliation of the local branch: the identifier is recorded
    when the record has none, the provider when the record's differs. *)
Definition reconcile (pid : pstr) (sandbox_info : dict) : dict * bool :=
  let '(sandbox_info, must_update) :=
    if negb (value_truthy (dict_get sandbox_info "id"))
    then (<["id"%string := VStr pid]> sandbox_info, true)
    else (sandbox_info, false) in
  if negb (bool_decide (dict_get sandbox_info "provider" = VStr PROVIDER))
  then (<["provider"%string := VStr PROVIDER]> sandbox_info, true)
  else (sandbox_info, must_update).

(** The end of both branches: the handle is fetched and cached. *)
Definition fetch (self : SandboxToolsBase) (w : World)
  : result handle * (SandboxToolsBase * World) :=
  match as_str (_sandbox_id self) with
  | inr e => (inr e, (self, w))
  | inl sid =>
      match get_or_start_sandbox sid w with
      | (inr e, w1) => (inr e, (self, w1))
      | (inl h, w1) => (inl h, (set_sandbox self h, w1))
      end
  end.

Definition ensure_local (self : SandboxToolsBase) (w : World)
  : result handle * (SandboxToolsBase * World) :=
  let prepared : result (SandboxToolsBase * World) :=
    if db_client self w then
      match DB.select (db w) (project_id self) with
      | [] => inr (ValueError "Project not found in DB")
      | project_data :: _ =>
          let '(sandbox_info, must_update) :=
            reconcile (project_id self) (sandbox_info_of project_data) in
          let w1 := if must_update
                    then with_db w (DB.update (db w) (project_id self) sandbox_info).2
                    else w in
          inl (set_ids self (dict_get sandbox_info "id") (dict_get sandbox_info "pass"), w1)
      end
    else inl (set_ids self (VStr (project_id self)) VNone, w) in
  match prepared with
  | inr e => (inr e, (self, w))
  | inl (self1, w1) =>
      match fetch self1 w1 with
      | (inr e, st) => (inr e, st)
      | (inl h, (self2, w2)) =>
          match FS.mkdir (fs w2) (parse (workspace_path self2)) with
          | (inr e, f) => (inr e, (self2, with_fs w2 f))
          | (inl _, f) => (inl h, (self2, with_fs w2 f))
          end
      end
  end.

(** [sandbox.destroy()] on the local sandbox object [ref] refers to. *)
Definition destroy_local (ref : nat) (w : World) : option (bool * World) :=
  match heap w !! ref with
  | Some obj =>
      let '(r, obj') := LocalProcess.destroy obj in
      Some (r, {| fs := fs w; heap := <[ref := obj']> (heap w); db := db w;
                  remote := remote w; drawn := drawn w |})
  | None => None
  end.

(** [getattr(link, key, None) or (str(link).split(key + "='")[1]
    .split("'")[0] if key + "='" in str(link) else None)]: the quote that
    ends the value comes before any further occurrence of the key. *)
Definition link_field (attr : option pstr) (key : pstr) (repr : pstr) : value :=
  let fallback :=
    match after_first (key ++ py "='") repr with
    | Some rest => VStr (before_first 39 rest)
    | None => VNone
    end in
  match attr with
  | Some u => if truthy u then VStr u else fallback
  | None => fallback
  end.

(** [sandbox_obj.get_preview_link(port)] *)
Definition preview_link (h : handle) (port : Z) (w : World)
  : result Daytona.Link * World :=
  match h with
  | Remote sb => on_remote (Daytona.get_preview_link D sb port) w
  | Local _ => (inl (Daytona.mkLink None None []), w)
  end.

(** The [try] around the preview links: any failure leaves the three
    fields [None]. *)
Definition preview_fields (h : handle) (w : World) : (value * value * value) * World :=
  match preview_link h 6080 w with
  | (inr _, w1) => ((VNone, VNone, VNone), w1)
  | (inl vnc_link, w1) =>
      match preview_link h 8080 w1 with
      | (inr _, w2) => ((VNone, VNone, VNone), w2)
      | (inl website_link, w2) =>
          ((link_field (Daytona.url vnc_link) (py "url") (Daytona.repr vnc_link),
            link_field (Daytona.url website_link) (py "url") (Daytona.repr website_link),
            link_field (Daytona.token vnc_link) (py "token") (Daytona.repr vnc_link)),
           w2)
      end
  end.

Definition ensure_daytona (self : SandboxToolsBase) (w : World)
  : result handle * (SandboxToolsBase * World) :=
  if negb (db_client self w)
  then (inr (RuntimeError "Daytona flow requires a valid thread_manager with DB access"),
        (self, w))
  else
    match DB.select (db w) (project_id self) with
    | [] => (inr (ValueError "Project not found in DB"), (self, w))
    | project_data :: _ =>
        let sandbox_info := sandbox_info_of project_data in
        if negb (value_truthy (dict_get sandbox_info "id")) then
          let sandbox_pass := uuid4 (drawn w) in
          let w0 := {| fs := fs w; heap := heap w; db := db w;
                       remote := remote w; drawn := S (drawn w) |} in
          match create_sandbox sandbox_pass (Some (project_id self)) w0 with
          | (inr e, w1) => (inr e, (self, w1))
          | (inl sandbox_obj, w1) =>
              let sandbox_id := handle_id sandbox_obj w1 in
              let '((vnc_url, website_url, token), w2) := preview_fields sandbox_obj w1 in
              let '(data, db') :=
                DB.update (db w2) (project_id self)
                  {[ "id"%string := VStr sandbox_id;
                     "pass"%string := VStr sandbox_pass;
                     "vnc_preview"%string := vnc_url;
                     "sandbox_url"%string := website_url;
                     "token"%string := token;
                     "provider"%string := VStr (py "daytona") ]} in
              let w3 := with_db w2 db' in
              match data with
              | [] =>
                  (inr (Exception "[daytona] Database update failed when storing sandbox metadata"),
                   (self, (delete_sandbox sandbox_id w3).2))
              | _ :: _ =>
                  fetch (set_ids self (VStr sandbox_id) (VStr sandbox_pass)) w3
              end
          end
        else
          fetch (set_ids self (dict_get sandbox_info "id") (dict_get sandbox_info "pass")) w
    end.

(** [SandboxToolsBase._ensure_sandbox] *)
Definition _ensure_sandbox (self : SandboxToolsBase) (w : World)
  : result handle * (SandboxToolsBase * World) :=
  match _sandbox self with
  | Some h => (inl h, (self, w))
  | None =>
      if eqb PROVIDER (py "local_process") || eqb PROVIDER (py "local_docker")
      then ensure_local self w
      else ensure_daytona self w
  end.

End World.
End Lifecycle.

(** ** Vocabulary of the properties *)

Module Spec.
Import PyStr.




(** The non-empty pieces between the slashes. *)
Definition parts_of (s : pstr) : list pstr :=
  filter (fun part => truthy part = true) (split slash s).

(** A path segment: not empty, without slash and backslash. *)
Definition segment (x : pstr) : bool :=
  truthy x && negb (contains slash x) && negb (contains backslash x).

(** No backslash, no two slashes in a row, no slash at the end. *)
Fixpoint smooth (s : pstr) : bool :=
  match s with
  | [] => true
  | c :: t =>
      negb (c =? backslash)
      && (if c =? slash
          then match t with [] => false | d :: _ => negb (d =? slash) end
          else true)
      && smooth t
  end.






End Spec.

(** ** Further operations of the workspace configuration and the file adapter *)

Module WorkspaceOps.
Import PyStr Pathlib WorkspaceConfig.

(** [WorkspaceConfig.ensure_project_workspace_exists]: the directory is made
    for the provider [local_process] only. *)
Definition ensure_project_workspace_exists (self : WorkspaceConfig.t)
    (project_id : pstr) (fs : FS.t) : result pstr * FS.t :=
  let project_dir := get_project_directory_path self project_id in
  if eqb (PROVIDER self) (py "local_process")
  then bind (FS.mkdir fs (parse project_dir)) (fun _ fs1 => (inl project_dir, fs1))
  else (inl project_dir, fs).

End WorkspaceOps.

(** ** Removing files and directories

    [os.unlink], [os.rmdir], [Path.rglob] and the order of paths, as
    CPython 3.11 and Linux define them, for [_LocalFS.delete_file]. *)

Module Removal.
Import PyStr Pathlib FS.












(** The order of lists, element by element, a proper beginning first. *)
Fixpoint lex_compare {A : Type} (cmp : A -> A -> comparison) (l1 l2 : list A)
  : comparison :=
  match l1, l2 with
  | [], [] => Eq
  | [], _ :: _ => Lt
  | _ :: _, [] => Gt
  | a :: l1', b :: l2' =>
      match cmp a b with
      | Eq => lex_compare cmp l1' l2'
      | c => c
      end
  end.

(** The order of strings: by code points. *)
Definition str_compare : pstr -> pstr -> comparison := lex_compare N.compare.

(** What paths are compared by: the root, when there is one, and the
    parts. *)
Definition _cparts (p : Path) : list pstr :=
  (if truthy (root p) then [root p] else []) ++ parts p.

Definition path_compare (p q : Path) : comparison :=
  lex_compare str_compare (_cparts p) (_cparts q).

(** [q <= p]: the order of [sorted(..., reverse=True)]. *)
Definition path_ge (p q : Path) : Prop := path_compare p q <> Lt.

#[export] Instance path_ge_dec (p q : Path) : Decision (path_ge p q).
Proof. unfold path_ge. destruct (path_compare p q); [left|right|left]; congruence. Defined.


End Removal.

(** ** [_LocalFS.delete_file]

    A current directory that has itself been removed is outside the model:
    the walk from it fails here, where Linux still resolves [..] from it.
    The statements below are about paths that do not lead there. *)

Module Deletion.
Import PyStr Pathlib FS Removal.




End Deletion.

(** ** The accessors of [SandboxToolsBase] *)

Module ToolAccess.
Import PyStr Lifecycle.

(** The property [sandbox] *)
Definition sandbox (self : SandboxToolsBase) : result handle :=
  match _sandbox self with
  | None => inr (RuntimeError "Sandbox not initialized. Call _ensure_sandbox() first.")
  | Some h => inl h
  end.

(** The property [sandbox_id] *)
Definition sandbox_id (self : SandboxToolsBase) : result value :=
  match _sandbox_id self with
  | VNone => inr (RuntimeError "Sandbox ID not initialized. Call _ensure_sandbox() first.")
  | v => inl v
  end.

(** [clean_path], [resolve_path] and [is_path_safe]: the methods of the
    module's [workspace_config] at the project of the tool. *)
Definition clean_path (cfg : WorkspaceConfig.t) (self : SandboxToolsBase)
    (path : pstr) : pstr :=
  WorkspaceConfig.normalize_path cfg path (project_id self).

Definition resolve_path (cfg : WorkspaceConfig.t) (self : SandboxToolsBase)
    (relative_path : pstr) : pstr :=
  WorkspaceConfig.resolve_absolute_path cfg relative_path (project_id self).

Definition is_path_safe (cfg : WorkspaceConfig.t) (cwd : list pstr)
    (self : SandboxToolsBase) (path : pstr) : bool :=
  WorkspaceSafety.is_path_safe cfg cwd path (project_id self).

End ToolAccess.

(** ** Vocabulary of the further properties *)

Module Frame.

(** The file system [fs'] has every node of [fs], unchanged, and beyond them
    directories only; the current directory and the clock are the same. *)
Definition grows (fs fs' : FS.t) : Prop :=
  FS.cwd fs' = FS.cwd fs
  /\ FS.clock fs' = FS.clock fs
  /\ (forall key n, FS.tree fs !! key = Some n -> FS.tree fs' !! key = Some n)
  /\ (forall key, FS.tree fs !! key = None ->
                  FS.tree fs' !! key = None
                  \/ exists m, FS.tree fs' !! key = Some (FS.Dir m)).




(** The walk from [s] along [ps] goes through directories. *)
Definition way_ok (tr : gmap (list pstr) FS.node) (s ps : list pstr) : Prop :=
  forall i, (i < length ps)%nat -> FS.is_dir_node (tr !! (s ++ take i ps)) = true.


(** A node of the same kind: the regular file itself, with its content and
    its time, or a directory. *)
Definition same_kind (n n' : FS.node) : Prop :=
  match n with
  | FS.File _ _ => n' = n
  | FS.Dir _ => exists m, n' = FS.Dir m
  end.

(** [extends] is what the statements use: it says nothing of the time of a
    directory, which the model leaves alone when an entry is made in the
    directory.  [fs'] has every regular file of [fs] unchanged, every
    directory of [fs] as a directory, and beyond them directories only. *)
Definition extends (fs fs' : FS.t) : Prop :=
  FS.cwd fs' = FS.cwd fs
  /\ (forall key n, FS.tree fs !! key = Some n ->
        exists n', FS.tree fs' !! key = Some n' /\ same_kind n n')
  /\ (forall key, FS.tree fs !! key = None ->
                  FS.tree fs' !! key = None
                  \/ exists m, FS.tree fs' !! key = Some (FS.Dir m)).

End Frame.

(** ** Concrete configurations, file systems and platforms

    The inputs of the examples. *)

(** The configuration of the local provider and of the remote one, both
    with the default workspace root [/workspace]. *)
Definition cfg_local : WorkspaceConfig.t :=
  WorkspaceConfig.init None (Some (py "local_process")).

Definition cfg_daytona : WorkspaceConfig.t := WorkspaceConfig.init None None.

(** A file system with the root directory only, and the adapter of the
    workspace [/workspace]. *)
Definition fs_empty : FS.t := FS.mk {[ [] := FS.Dir 0 ]} [] 1.

Definition local_fs : LocalProcess._LocalFS :=
  LocalProcess._LocalFS_init (py "/workspace").

(** The same with the directory [/workspace/sub] and the file
    [/workspace/notes.txt]. *)
Definition fs_sub : FS.t :=
  (FS.write_bytes (FS.mkdir fs_empty (Pathlib.parse (py "/workspace/sub"))).2
     (Pathlib.parse (py "/workspace/notes.txt")) [x68; x69]%byte).2.

(** A platform for the examples: a command that starts with [sleep] runs
    five seconds, every other shell command is an installer that fails after
    two seconds with exit code 1; a script run by the interpreter exits with
    0; a virtual environment is its directory with [pyvenv.cfg]. *)
Definition script_sleep : OS.script :=
  OS.mkScript (Some 5%Z) 0 [] [] (fun fs => fs) (fun _ fs => fs).

Definition script_failing_installer : OS.script :=
  OS.mkScript (Some 2%Z) 1 [] [x6e; x6f]%byte (fun fs => fs) (fun _ fs => fs).

Definition script_ok : OS.script :=
  OS.mkScript (Some 1%Z) 0 [x32; x0a]%byte [] (fun fs => fs) (fun _ fs => fs).

Definition platform_example : OS.Platform :=
  {| OS.spawn_shell := fun _ cmd _ _ =>
       inl (if PyStr.startswith (py "sleep") cmd then script_sleep
            else script_failing_installer);
     OS.spawn_exec := fun _ _ _ => inl script_ok;
     OS.venv_create := fun v fs =>
       bind (FS.mkdir fs v) (fun _ fs1 =>
       bind (FS.write_bytes fs1 (Pathlib.joinpath v (py "pyvenv.cfg")) []) (fun _ fs2 =>
       (inl tt, fs2)));
     OS.temp_name := fun wd suffix _ =>
       Pathlib.str (Pathlib.joinpath wd (py "tmpscript" ++ suffix));
     OS.dedent := fun s => s;
     OS.encode := fun s => omap Byte.of_N s |}.

(** The local sandbox of the project [demo] and the system it was made in. *)
Definition sandbox_example : LocalProcess.LocalProcessSandbox :=
  LocalProcess.mkSandbox (py "demo") (py "/workspace") (py "RUNNING").

Definition os_example : OS.t :=
  OS.mk (LocalProcess.create (py "demo") (py "/workspace") fs_empty).2 [].

(** A remote platform that refuses every call, a store with the record of
    project [p1] as the remote provider wrote it, and a world with one local
    sandbox object. *)
Definition client_down : Daytona.Client unit :=
  {| Daytona.get := fun _ r => (inr (ProviderError "unreachable"), r);
     Daytona.start := fun _ r => (inr (ProviderError "unreachable"), r);
     Daytona.create := fun _ _ r => (inr (ProviderError "unreachable"), r);
     Daytona.delete := fun _ r => (inr (ProviderError "unreachable"), r);
     Daytona.create_session := fun _ _ r => (inr (ProviderError "unreachable"), r);
     Daytona.execute_session_command :=
       fun _ _ _ r => (inr (ProviderError "unreachable"), r);
     Daytona.get_preview_link := fun _ _ r => (inr (ProviderError "unreachable"), r) |}.

Definition record_of_remote_provider : dict :=
  {[ "id"%string := VStr (py "sb-1"); "pass"%string := VStr (py "secret");
     "provider"%string := VStr (py "daytona") ]}.

Definition db_example : DB.t :=
  {| DB.projects := {[ py "p1" := DB.mkRow (Some record_of_remote_provider) ]};
     DB.reachable := true;
     DB.accepts_updates := true |}.

Definition world_example : @Lifecycle.World unit :=
  {| Lifecycle.fs := fs_empty;
     Lifecycle.heap := {[ 0%nat := sandbox_example ]};
     Lifecycle.db := db_example;
     Lifecycle.remote := tt;
     Lifecycle.drawn := 0 |}.

(** The tool of project [p1] with access to the store, and the tool of the
    smoke test, without. *)
Definition tool_example : Lifecycle.SandboxToolsBase :=
  Lifecycle.init cfg_local (py "p1") (Some (Lifecycle.mkThreadManager true)).

Definition tool_without_store : Lifecycle.SandboxToolsBase :=
  Lifecycle.init cfg_local (py "demo-proj") None.

(** A remote platform that serves every call: a created sandbox has the
    identifier [sb-new], and a store where project [p2] has no sandbox
    recorded yet. *)
Definition client_up : Daytona.Client nat :=
  {| Daytona.get := fun sid r => (inl (Daytona.mkSandbox sid Daytona.STARTED), r);
     Daytona.start := fun _ r => (inl tt, r);
     Daytona.create :=
       fun _ _ r => (inl (Daytona.mkSandbox (py "sb-new") Daytona.STARTED), S r);
     Daytona.delete := fun _ r => (inl tt, r);
     Daytona.create_session := fun _ _ r => (inl tt, r);
     Daytona.execute_session_command := fun _ _ _ r => (inl tt, r);
     Daytona.get_preview_link :=
       fun _ _ r => (inl (Daytona.mkLink (Some (py "http://preview")) (Some (py "tok")) []),
                     r) |}.

Definition db_unrecorded (accepts : bool) : DB.t :=
  {| DB.projects := {[ py "p1" := DB.mkRow (Some record_of_remote_provider);
                       py "p2" := DB.mkRow None ]};
     DB.reachable := true;
     DB.accepts_updates := accepts |}.

Definition world_daytona (accepts : bool) : @Lifecycle.World nat :=
  {| Lifecycle.fs := fs_empty;
     Lifecycle.heap := ∅;
     Lifecycle.db := db_unrecorded accepts;
     Lifecycle.remote := 0%nat;
     Lifecycle.drawn := 0 |}.

Definition tool_daytona : Lifecycle.SandboxToolsBase :=
  Lifecycle.init cfg_daytona (py "p2") (Some (Lifecycle.mkThreadManager true)).

Definition tool_unknown : Lifecycle.SandboxToolsBase :=
  Lifecycle.init cfg_local (py "nobody") (Some (Lifecycle.mkThreadManager true)).

(** A command whose output is no UTF-8 text, and a platform where every
    shell command is this one. *)
Definition script_binary_output : OS.script :=
  OS.mkScript (Some 1%Z) 0 [x50; xff]%byte [] (fun fs => fs) (fun _ fs => fs).

Definition platform_binary : OS.Platform :=
  {| OS.spawn_shell := fun _ _ _ _ => inl script_binary_output;
     OS.spawn_exec := OS.spawn_exec platform_example;
     OS.venv_create := OS.venv_create platform_example;
     OS.temp_name := OS.temp_name platform_example;
     OS.dedent := OS.dedent platform_example;
     OS.encode := OS.encode platform_example |}.

(** * Properties *)

(** ** Strings *)

Section StringFacts.
Import PyStr.

Lemma eqb_true (a b : pstr) : eqb a b = true <-> a = b.
Proof. unfold eqb. apply bool_decide_eq_true. Qed.

Lemma eqb_false (a b : pstr) : eqb a b = false <-> a <> b.
Proof. unfold eqb. apply bool_decide_eq_false. Qed.

Lemma eqb_refl (a : pstr) : eqb a a = true.
Proof. by apply eqb_true. Qed.

Lemma eqb_sym (a b : pstr) : eqb a b = eqb b a.
Proof.
  destruct (eqb b a) eqn:E.
  - apply eqb_true in E. subst. apply eqb_refl.
  - apply eqb_false in E. apply eqb_false. congruence.
Qed.

Lemma contains_false (c : N) (s : pstr) : contains c s = false <-> c ∉ s.
Proof.
  unfold contains. induction s as [|a s IH]; simpl.
  - split; [intros _; apply not_elem_of_nil | done].
  - rewrite orb_false_iff, IH, not_elem_of_cons, N.eqb_neq. tauto.
Qed.

Lemma contains_cons (c a : N) (s : pstr) :
  contains c (a :: s) = (c =? a) || contains c s.
Proof. done. Qed.

Lemma contains_app (c : N) (s t : pstr) :
  contains c (s ++ t) = contains c s || contains c t.
Proof. unfold contains. apply existsb_app. Qed.

Lemma split_nonempty (c : N) (s : pstr) : split c s <> [].
Proof.
  induction s as [|a s IH]; simpl; [done|].
  destruct (a =? c); [done|]. by destruct (split c s).
Qed.

(** [split] distributes over a separator between two strings. *)
Lemma split_app_sep (c : N) (s t : pstr) :
  split c (s ++ c :: t) = split c s ++ split c t.
Proof.
  induction s as [|a s IH]; simpl.
  - by rewrite N.eqb_refl.
  - destruct (a =? c); [by rewrite IH|].
    rewrite IH. pose proof (split_nonempty c s).
    by destruct (split c s).
Qed.

Lemma split_no_sep (c : N) (s : pstr) : contains c s = false -> split c s = [s].
Proof.
  induction s as [|a s IH]; simpl; [done|].
  rewrite (N.eqb_sym c a). intros [Ha Hs]%orb_false_iff.
  by rewrite Ha, (IH Hs).
Qed.


Lemma lstrip_repeat (c : N) (s : pstr) :
  exists k, s = repeat c k ++ lstrip c s.
Proof.
  induction s as [|a s [k IH]]; simpl.
  - by exists 0%nat.
  - destruct (a =? c) eqn:E.
    + apply N.eqb_eq in E. subst. exists (S k). simpl. by f_equal.
    + by exists 0%nat.
Qed.

Lemma rstrip_repeat (c : N) (s : pstr) :
  exists k, s = rstrip c s ++ repeat c k.
Proof.
  unfold rstrip. destruct (lstrip_repeat c (rev s)) as [k Hk].
  exists k. apply (f_equal (@rev N)) in Hk.
  rewrite rev_involutive, rev_app_distr in Hk.
  rewrite Hk at 1. f_equal. clear.
  induction k; simpl; [done|]. by rewrite IHk, <- repeat_cons.
Qed.

End StringFacts.

(** ** Parts of a path *)

Section PartsFacts.
Import PyStr Spec Api.

Lemma list_pair_ind (A : Type) (P : list A -> Prop) :
  P [] -> (forall x, P [x]) ->
  (forall x y r, P r -> P (y :: r) -> P (x :: y :: r)) ->
  forall l, P l.
Proof.
  intros H0 H1 H2 l.
  assert (P l /\ forall a, P (a :: l)) as [? _]; [|done].
  induction l as [|b l [IH1 IH2]]; [by split|].
  split; [apply IH2|]. intros a. by apply H2.
Qed.

Lemma parts_of_cons_slash (s : pstr) : parts_of (slash :: s) = parts_of s.
Proof. done. Qed.

Lemma parts_of_snoc_slash (s : pstr) : parts_of (s ++ [slash]) = parts_of s.
Proof.
  unfold parts_of. rewrite split_app_sep, filter_app. simpl.
  by rewrite app_nil_r.
Qed.

Lemma parts_of_repeat_l (k : nat) (s : pstr) :
  parts_of (repeat slash k ++ s) = parts_of s.
Proof. induction k; simpl; [done|]. by rewrite parts_of_cons_slash. Qed.

Lemma parts_of_repeat_r (k : nat) (s : pstr) :
  parts_of (s ++ repeat slash k) = parts_of s.
Proof.
  induction k as [|k IH]; simpl; [by rewrite app_nil_r|].
  rewrite repeat_cons, app_assoc, parts_of_snoc_slash. apply IH.
Qed.

Lemma parts_of_strip (s : pstr) : parts_of (strip slash s) = parts_of s.
Proof.
  unfold strip.
  destruct (lstrip_repeat slash s) as [k Hk].
  destruct (rstrip_repeat slash (lstrip slash s)) as [j Hj].
  rewrite Hk at 2. rewrite parts_of_repeat_l.
  rewrite Hj at 2. by rewrite parts_of_repeat_r.
Qed.

Lemma path_parts_eq (p : pstr) :
  path_parts p = parts_of (replace_char backslash slash p).
Proof. unfold path_parts. apply parts_of_strip. Qed.

Lemma replace_char_id (a b : N) (s : pstr) :
  contains a s = false -> replace_char a b s = s.
Proof.
  induction s as [|c s IH]; simpl; [done|].
  rewrite (N.eqb_sym a c). intros [Hc Hs]%orb_false_iff.
  unfold replace_char in *. simpl. by rewrite Hc, (IH Hs).
Qed.

Lemma replace_char_gone (a b : N) (s : pstr) :
  a <> b -> contains a (replace_char a b s) = false.
Proof.
  intros Hab. induction s as [|c s IH]; simpl; [done|].
  rewrite IH, orb_false_r. destruct (c =? a) eqn:E.
  - by apply N.eqb_neq.
  - rewrite N.eqb_sym. done.
Qed.

Lemma path_parts_plain (p : pstr) :
  contains backslash p = false -> path_parts p = parts_of p.
Proof. intros H. by rewrite path_parts_eq, replace_char_id. Qed.

(** The pieces [split] returns hold no separator, and no character the
    string does not hold. *)
Lemma split_pieces (c d : N) (s : pstr) :
  (d = c \/ contains d s = false) ->
  Forall (fun w => contains d w = false) (split c s).
Proof.
  induction s as [|a s IH]; simpl; intros H.
  - by repeat constructor.
  - destruct (a =? c) eqn:E.
    + constructor; [done|]. apply IH. destruct H as [?|H]; [by left|].
      right. by apply orb_false_iff in H as [_ ?].
    + assert ((d =? a) = false) as Hda.
      { destruct H as [->|H]; [by rewrite N.eqb_sym|].
        by apply orb_false_iff in H as [? _]. }
      assert (d = c \/ contains d s = false) as H'.
      { destruct H as [?|H]; [by left|]. right.
        by apply orb_false_iff in H as [_ ?]. }
      specialize (IH H'). pose proof (split_nonempty c s).
      destruct (split c s); [done|]. inversion IH; subst.
      constructor; [|done]. simpl. by rewrite Hda.
Qed.

Lemma Forall_segment_parts_of (s : pstr) :
  contains backslash s = false -> Forall (fun x => segment x = true) (parts_of s).
Proof.
  intros Hb. unfold parts_of.
  pose proof (split_pieces slash slash s (or_introl eq_refl)) as H1.
  pose proof (split_pieces slash backslash s (or_intror Hb)) as H2.
  induction (split slash s) as [|w ws IH]; [constructor|].
  inversion H1; inversion H2; subst.
  rewrite filter_cons. case_decide as Hw; [|by apply IH].
  constructor; [|by apply IH]. unfold segment.
  by repeat (apply andb_true_iff; split); [|apply negb_true_iff..].
Qed.

Lemma Forall_segment_path_parts (p : pstr) :
  Forall (fun x => segment x = true) (path_parts p).
Proof.
  rewrite path_parts_eq. apply Forall_segment_parts_of.
  by apply replace_char_gone.
Qed.

Lemma segment_inv (x : pstr) :
  segment x = true ->
  truthy x = true /\ contains slash x = false /\ contains backslash x = false.
Proof.
  unfold segment. rewrite !andb_true_iff, !negb_true_iff. tauto.
Qed.

(** The parts of a joined list of segments are these segments. *)
Lemma parts_of_join (l : list pstr) :
  Forall (fun x => segment x = true) l -> parts_of (join [slash] l) = l.
Proof.
  induction l as [|w l IH]; intros H; [done|].
  inversion H as [|? ? Hw Hl]; subst.
  apply segment_inv in Hw as (Hne & Hs & _).
  destruct l as [|w' l].
  - simpl. unfold parts_of. rewrite (split_no_sep _ _ Hs).
    rewrite filter_cons. by case_decide.
  - change (join [slash] (w :: w' :: l))
      with (w ++ slash :: join [slash] (w' :: l)).
    unfold parts_of in *. rewrite split_app_sep, filter_app, (IH Hl).
    rewrite (split_no_sep _ _ Hs), filter_cons. by case_decide.
Qed.

Lemma contains_join (c : N) (l : list pstr) :
  c <> slash -> Forall (fun x => contains c x = false) l ->
  contains c (join [slash] l) = false.
Proof.
  intros Hc. induction l as [|w l IH]; intros H; [done|].
  inversion H; subst. destruct l as [|w' l]; [done|].
  change (join [slash] (w :: w' :: l))
    with (w ++ slash :: join [slash] (w' :: l)).
  rewrite contains_app, contains_cons, IH by done.
  rewrite orb_false_r. apply orb_false_iff. split; [done|].
  by apply N.eqb_neq.
Qed.

End PartsFacts.

(** ** Collapsing duplicated segments *)

Section Deduplication.
Import PyStr Spec Api.

Lemma deduplicate_Forall (P : pstr -> Prop) (l : list pstr) :
  Forall P l -> Forall P (deduplicate l).
Proof.
  induction l as [| x | x y r IHr IHyr] using list_pair_ind; intros H.
  - constructor.
  - done.
  - inversion H as [|? ? Hx Hyr]; subst. inversion Hyr; subst.
    simpl. constructor; [done|].
    destruct (eqb y x); [by apply IHr | by apply IHyr].
Qed.






Lemma fix_small (p : pstr) (pid : option pstr) :
  (length (path_parts p) <? 2)%nat = true -> _fix_path_duplications p pid = p.
Proof. intros H. unfold _fix_path_duplications. by rewrite H. Qed.

Lemma fix_large (p : pstr) (pid : option pstr) :
  (length (path_parts p) <? 2)%nat = false ->
  _fix_path_duplications p pid = slash :: join [slash] (deduplicate (path_parts p)).
Proof.
  intros H. unfold _fix_path_duplications. rewrite H.
  by destruct (deduplicate (path_parts p)).
Qed.

(** The parts of a slash followed by joined segments. *)
Lemma path_parts_joined (l : list pstr) :
  Forall (fun x => segment x = true) l ->
  path_parts (slash :: join [slash] l) = l.
Proof.
  intros H. rewrite path_parts_plain.
  - rewrite parts_of_cons_slash. by apply parts_of_join.
  - rewrite contains_cons. apply orb_false_iff. split; [done|].
    apply contains_join; [done|].
    eapply Forall_impl; [exact H|]. intros x Hx.
    by apply segment_inv in Hx as (_ & _ & ?).
Qed.

End Deduplication.

(** ** Decoding and idempotence *)

Section Idempotence.
Import PyStr Spec Api.










(** *** With a project id *)

Lemma lstrip_drop (c : N) (s : pstr) : exists k, lstrip c s = drop k s.
Proof.
  induction s as [|a s [k IH]]; [by exists 0%nat|]. simpl.
  destruct (a =? c); [by exists (S k) | by exists 0%nat].
Qed.

(** [WorkspaceConfig.normalize_path] returns an end of the path without
    its leading slashes. *)
Lemma workspace_normalize_drop (cfg : WorkspaceConfig.t) (x pid : pstr) :
  exists k, WorkspaceConfig.normalize_path cfg x pid = drop k (lstrip slash x).
Proof.
  unfold WorkspaceConfig.normalize_path.
  set (x1 := lstrip slash x). set (wp := lstrip slash _).
  assert (exists k, (if startswith wp x1
                     then lstrip slash (drop (length wp) x1) else x1) = drop k x1)
    as [k ->].
  { destruct (startswith wp x1); [|by exists 0%nat].
    destruct (lstrip_drop slash (drop (length wp) x1)) as [j ->].
    rewrite drop_drop. by eexists. }
  destruct (startswith _ _); [|by eexists].
  rewrite drop_drop. by eexists.
Qed.





Lemma smooth_tail (c : N) (t : pstr) : smooth (c :: t) = true -> smooth t = true.
Proof. simpl. by intros [_ ?]%andb_true_iff. Qed.


Lemma smooth_no_backslash (s : pstr) :
  smooth s = true -> contains backslash s = false.
Proof.
  induction s as [|c t IH]; [done|]. intros Hs.
  rewrite contains_cons, (IH (smooth_tail _ _ Hs)), orb_false_r, N.eqb_sym.
  simpl in Hs. apply andb_true_iff in Hs as [[Hc _]%andb_true_iff _].
  by apply negb_true_iff.
Qed.



Lemma smooth_joined (l : list pstr) :
  Forall (fun x => segment x = true) l -> smooth (slash :: join [slash] l) = true
  \/ l = [].
Proof.
  induction l as [|w l IH]; intros H; [by right|]. left.
  inversion H as [|? ? Hw Hl]; subst.
  apply segment_inv in Hw as (Hne & Hs & Hb).
  assert (forall rest, smooth rest = true -> smooth (w ++ rest) = true) as Happ.
  { intros rest Hrest. clear Hne H IH.
    induction w as [|a w IHw]; [done|].
    rewrite contains_cons in Hs, Hb.
    apply orb_false_iff in Hs as [Ha Hs]. apply orb_false_iff in Hb as [Ha' Hb].
    rewrite N.eqb_sym in Ha. rewrite N.eqb_sym in Ha'.
    simpl. rewrite Ha, Ha'. simpl. by apply IHw. }
  assert (smooth (join [slash] (w :: l)) = true) as Hj.
  { destruct l as [|w' l]; [simpl; rewrite <- (app_nil_r w); by apply Happ|].
    change (join [slash] (w :: w' :: l))
      with (w ++ slash :: join [slash] (w' :: l)).
    apply Happ. by destruct (IH Hl). }
  destruct w as [|a w]; [done|].
  rewrite contains_cons in Hs. apply orb_false_iff in Hs as [Ha _].
  rewrite N.eqb_sym in Ha.
  change (smooth (slash :: join [slash] ((a :: w) :: l)))
    with (negb (slash =? backslash)
          && (match join [slash] ((a :: w) :: l) with
              | [] => false | d :: _ => negb (d =? slash) end)
          && smooth (join [slash] ((a :: w) :: l))).
  apply andb_true_iff. split; [|exact Hj].
  destruct l; simpl; by rewrite Ha.
Qed.



End Idempotence.

(** ** Claims on path normalisation *)

Section NormalizeClaims.
Import PyStr Spec Api.

Example normalize_example_without_project :
  normalize_path cfg_local (py "data/data/file.txt") None = py "/data/file.txt".
Proof. vm_compute. reflexivity. Qed.

Example normalize_example_with_project :
  normalize_path cfg_local (py "data/data/file.txt") (Some (py "p"))
  = py "data/file.txt".
Proof. vm_compute. reflexivity. Qed.









End NormalizeClaims.

(** ** Path containment *)

Section PathSafety.
Import PyStr Pathlib WorkspaceConfig WorkspaceSafety.

(** What a [True] of [is_path_safe] says: the canonical project directory
    is a prefix, as a string, of the canonical path. *)
Lemma is_path_safe_string_prefix
    (cfg : WorkspaceConfig.t) (cwd : list pstr) (path project_id : pstr) :
  is_path_safe cfg cwd path project_id = true ->
  startswith
    (str (canonical cwd (get_project_directory_path cfg project_id)))
    (str (canonical cwd (resolve_absolute_path cfg path project_id)))
  = true.
Proof.
  unfold is_path_safe, resolve, canonical.
  destruct (contains 0 (str (parse (resolve_absolute_path _ _ _)))); [done|].
  by destruct (contains 0 (str (parse (get_project_directory_path _ _)))).
Qed.

Example etc_passwd_is_rejected :
  is_path_safe cfg_local [] (py "../../etc/passwd") (py "p") = false
  /\ is_path_safe cfg_daytona [] (py "../../etc/passwd") (py "p") = false.
Proof. split; vm_compute; reflexivity. Qed.

(** C1: the code at the failing inputs.  With the local provider the path
    [../workspace2/secret] resolves to [/workspace2/secret], outside the
    project directory [/workspace], and [is_path_safe] returns [True]; with
    the remote provider [../p10/secret] of project [p1] resolves into the
    directory of project [p10], and [is_path_safe] returns [True]. *)
Theorem is_path_safe_accepts_sibling_directory :
  (is_path_safe cfg_local [] (py "../workspace2/secret") (py "p") = true
   /\ str (canonical [] (resolve_absolute_path cfg_local
                           (py "../workspace2/secret") (py "p")))
      = py "/workspace2/secret"
   /\ lies_within
        (canonical [] (get_project_directory_path cfg_local (py "p")))
        (canonical [] (resolve_absolute_path cfg_local
                         (py "../workspace2/secret") (py "p")))
      = false)
  /\ (is_path_safe cfg_daytona [] (py "../p10/secret") (py "p1") = true
      /\ str (canonical [] (resolve_absolute_path cfg_daytona
                              (py "../p10/secret") (py "p1")))
         = py "/workspace/p10/secret"
      /\ lies_within
           (canonical [] (get_project_directory_path cfg_daytona (py "p1")))
           (canonical [] (resolve_absolute_path cfg_daytona
                            (py "../p10/secret") (py "p1")))
         = false).
Proof. repeat split; vm_compute; reflexivity. Qed.

End PathSafety.

(** ** The file system *)

Section FileSystemFacts.
Import PyStr Pathlib FS.




(** Writing a file where no directory is leaves every walk that reached
    this place as it was. *)
Lemma walk_insert_file (tr : gmap (list pstr) node) (c : list pstr)
    (data : bytes) (m : Z) (cur : list pstr) (names : list pstr) (c' : list pstr) :
  is_dir_node (tr !! c) = false ->
  walk tr cur names = inl c' ->
  walk (<[c := File data m]> tr) cur names = inl c'.
Proof.
  intros Hc. revert cur. induction names as [|n rest IH]; intros cur Hw; [done|].
  simpl in *. destruct (tr !! cur) as [[]|] eqn:E; [done| |done].
  rewrite lookup_insert_ne; [|intros ->; by rewrite E in Hc].
  rewrite E. by apply IH.
Qed.


(** *** Making the directories on the way *)








Lemma mkdir_parents_unfold (r : pstr) (rparts : list pstr) (fs : FS.t) :
  mkdir_parents r rparts fs
  = match os_mkdir fs (mkPath r (rev rparts)) with
    | inl fs' => (inl tt, fs')
    | inr FileNotFoundError =>
        match rparts with
        | [] => (inr FileNotFoundError, fs)
        | _ :: rparent =>
            match mkdir_parents r rparent fs with
            | (inl _, fs1) => mkdir_exist_ok fs1 (mkPath r (rev rparts))
            | (inr e, fs1) => (inr e, fs1)
            end
        end
    | inr e => if FS.is_dir fs (mkPath r (rev rparts)) then (inl tt, fs)
               else (inr e, fs)
    end.
Proof. by destruct rparts. Qed.



End FileSystemFacts.

(** ** The file adapter of the local sandbox *)

Section LocalFSClaims.
Import PyStr Pathlib FS LocalProcess.





(** *** Listing *)







(** A base path that does not exist is listed as empty, whatever the tree. *)
Lemma list_files_missing (self : _LocalFS) (base : pstr) (fs : FS.t) :
  FS.exists_ fs (_abs self base) = false -> list_files self base fs = inl [].
Proof. intros H. unfold list_files. by rewrite H. Qed.




End LocalFSClaims.

(** ** The local execution engine *)

Section EngineClaims.
Import PyStr Pathlib LocalProcess.

Variable P : OS.Platform.
Variable SHELL_PATH : pstr.
Variable self : LocalProcessSandbox.

(** [str(p)] is never empty. *)
Lemma str_truthy (p : Path) : truthy (str p) = true.
Proof. unfold str. by destruct (root p ++ join [slash] (parts p)). Qed.

(** [communicate] adds one process to the table and nothing else. *)
Lemma communicate_one_process (sc : OS.script) (argv : list pstr) (dir : pstr)
    (timeout : Z) (extra : dict) (os : OS.t) :
  exists st,
    OS.processes (communicate sc argv dir timeout extra os).2
    = OS.processes os ++ [OS.mkProcess argv dir st].
Proof.
  unfold communicate. destruct (OS.exceeds sc timeout); [by eexists|].
  destruct (OS.decode (OS.out sc)); [|by eexists].
  destruct (OS.decode (OS.err sc)); by eexists.
Qed.

(** What [exec] returns has the three keys, and one child was spawned. *)
Lemma exec_returns (cmd : pstr + list pstr) (cwd : option pstr) (timeout : Z)
    (os os' : OS.t) (d : dict) :
  exec P SHELL_PATH self cmd cwd timeout os = (inl d, os') ->
  (exists c o e,
     d = {[ "code"%string := VInt c; "stdout"%string := VStr o;
            "stderr"%string := VStr e ]})
  /\ exists st,
       OS.processes os'
       = OS.processes os
           ++ [OS.mkProcess [SHELL_PATH; py "-c"; command_line cmd]
                 (working_directory self cwd) st].
Proof.
  unfold exec.
  destruct (OS.spawn_shell _ _ _ _ _) as [sc|e]; [|done].
  intros H. split.
  - unfold communicate in H. destruct (OS.exceeds sc timeout).
    { inversion H. rewrite (right_id_L ∅ (∪)). by do 3 eexists. }
    destruct (OS.decode (OS.out sc)); [|done].
    destruct (OS.decode (OS.err sc)); [|done].
    inversion H. rewrite (right_id_L ∅ (∪)). by do 3 eexists.
  - destruct (communicate_one_process sc [SHELL_PATH; py "-c"; command_line cmd]
                (working_directory self cwd) timeout ∅ os) as [st Hst].
    rewrite H in Hst. by exists st.
Qed.


(** C7.  When requirements are given and the installer, once the
    environment and the working directory are prepared, returns a result
    with a code other than 0, [run_python] returns this very result, in
    the state the installer left: no script has been written and no
    further process has been started. *)
Theorem run_python_install_failure
    (code project_id : pstr) (req : pstr) (reqs : list pstr)
    (workdir python_bin : option pstr) (timeout : Z)
    (os os2 os3 : OS.t) (py_bin : pstr) (wd : Path) (inst : dict) (c : value) :
  prepare P self project_id workdir python_bin os = (inl (py_bin, wd), os2) ->
  exec P SHELL_PATH self (inl (pip_command py_bin (req :: reqs)))
    (Some (str wd)) timeout os2 = (inl inst, os3) ->
  inst !! "code"%string = Some c ->
  nonzero c = true ->
  run_python P SHELL_PATH self code project_id (Some (req :: reqs)) workdir
    timeout python_bin os = (inl inst, os3)
  /\ exists st,
       OS.processes os3
       = OS.processes os2
           ++ [OS.mkProcess [SHELL_PATH; py "-c"; pip_command py_bin (req :: reqs)]
                 (str wd) st].
Proof.
  intros Hp He Hc Hnz.
  destruct (exec_returns _ _ _ _ _ _ He) as [(c' & o & e & Hd) [st Hst]].
  split.
  - unfold run_python, bind. rewrite Hp, He. unfold item. rewrite Hc, Hnz.
    subst inst. rewrite lookup_insert_eq in Hc. inversion Hc; subst c.
    rewrite lookup_insert_ne, lookup_insert_eq by done.
    by rewrite !lookup_insert_ne, lookup_singleton_eq by done.
  - exists st. rewrite Hst. do 3 f_equal. unfold working_directory.
    by rewrite str_truthy.
Qed.

End EngineClaims.

Section EngineWitnesses.
Import PyStr Pathlib LocalProcess.


Lemma run_python_install_failure_witness :
  exists inst os3,
    run_python platform_example (py "/bin/sh") sandbox_example
      (py "print(1+1)") (py "demo") (Some [py "numpy"]) None 900 None os_example
    = (inl inst, os3)
    /\ inst !! "code"%string = Some (VInt 1)
    /\ length (OS.processes os3) = 1%nat.
Proof.
  set (r := prepare platform_example sandbox_example (py "demo") None None os_example).
  set (py_bin := match r.1 with inl (a, _) => a | inr _ => [] end).
  set (wd := match r.1 with inl (_, b) => b | inr _ => parse [] end).
  set (x := exec platform_example (py "/bin/sh") sandbox_example
              (inl (pip_command py_bin [py "numpy"])) (Some (str wd)) 900 r.2).
  set (inst := match x.1 with inl d => d | inr _ => ∅ end).
  destruct (run_python_install_failure platform_example (py "/bin/sh")
              sandbox_example (py "print(1+1)") (py "demo") (py "numpy") []
              None None 900 os_example r.2 x.2 py_bin wd inst (VInt 1))
    as [Hrun [st Hst]].
  - vm_compute. reflexivity.
  - vm_compute. reflexivity.
  - vm_compute. reflexivity.
  - reflexivity.
  - exists inst, x.2. split; [exact Hrun|]. split; [vm_compute; reflexivity|].
    rewrite Hst. vm_compute. reflexivity.
Defined.

End EngineWitnesses.

(** ** The sandbox handle and its lifecycle *)

Section LifecycleClaims.
Import PyStr Pathlib Lifecycle.
Context {R : Type}.
Variable D : Daytona.Client R.
Variable cfg : WorkspaceConfig.t.
Variable uuid4 : nat -> pstr.

(** C9.  [destroy] on a local sandbox returns [True] and sets the state of
    the sandbox object to [ARCHIVED]; its other fields, the other objects,
    the file system, the store and the platform are as before. *)
Theorem destroy_archives_only (ref : nat) (w : @World R)
    (obj : LocalProcess.LocalProcessSandbox) :
  heap w !! ref = Some obj ->
  LocalProcess.destroy obj
  = (true, LocalProcess.mkSandbox (LocalProcess.id obj)
             (LocalProcess.workspace_root obj) (py "ARCHIVED"))
  /\ exists w',
       destroy_local ref w = Some (true, w')
       /\ heap w' !! ref
          = Some (LocalProcess.mkSandbox (LocalProcess.id obj)
                    (LocalProcess.workspace_root obj) (py "ARCHIVED"))
       /\ (forall other, other <> ref -> heap w' !! other = heap w !! other)
       /\ fs w' = fs w /\ db w' = db w /\ remote w' = remote w
       /\ drawn w' = drawn w.
Proof.
  intros Hobj. split; [done|]. unfold destroy_local. rewrite Hobj. simpl.
  eexists. split; [done|]. simpl. split; [by rewrite lookup_insert_eq|].
  split; [|done]. intros other Hne. by rewrite lookup_insert_ne.
Qed.

(** What [fetch] returns is cached in the tool. *)
Lemma fetch_caches (self self1 : SandboxToolsBase) (w w1 : @World R) (h : handle) :
  fetch D cfg self w = (inl h, (self1, w1)) -> _sandbox self1 = Some h.
Proof.
  unfold fetch. destruct (as_str (_sandbox_id self)); [|done].
  destruct (get_or_start_sandbox D cfg _ w) as [[h'|e] w']; [|done].
  intros H. by inversion H.
Qed.

Lemma ensure_local_caches (self self1 : SandboxToolsBase) (w w1 : @World R) (h : handle) :
  ensure_local D cfg self w = (inl h, (self1, w1)) -> _sandbox self1 = Some h.
Proof.
  unfold ensure_local.
  destruct (if db_client self w then _ else _) as [[self0 w0]|e]; [|done].
  destruct (fetch D cfg self0 w0) as [[h'|e] [self2 w2]] eqn:Hf; [|done].
  apply fetch_caches in Hf.
  destruct (FS.mkdir (fs w2) _) as [[u|e] f]; [|done].
  intros H. by inversion H; subst.
Qed.

Lemma ensure_daytona_caches (self self1 : SandboxToolsBase) (w w1 : @World R) (h : handle) :
  ensure_daytona D cfg uuid4 self w = (inl h, (self1, w1)) -> _sandbox self1 = Some h.
Proof.
  unfold ensure_daytona.
  destruct (negb (db_client self w)); [done|].
  destruct (DB.select (db w) (project_id self)) as [|project_data ?]; [done|].
  destruct (negb (value_truthy _)); [|apply fetch_caches].
  destruct (create_sandbox D cfg _ _ _) as [[sandbox_obj|e] w1']; [|done].
  destruct (preview_fields D sandbox_obj w1') as [[[vnc_url website_url] token] w2].
  destruct (DB.update _ _ _) as [[|? ?] db']; [done|]. apply fetch_caches.
Qed.

(** C6.  When [_ensure_sandbox] has returned a handle, the tool holds it,
    and a further call on this tool returns the same handle, hence the
    same sandbox id, and changes neither the tool nor anything else: in
    the state the first call left, and in any later state. *)
Theorem ensure_sandbox_twice (self self1 : SandboxToolsBase) (w w1 : @World R)
    (h : handle) :
  _ensure_sandbox D cfg uuid4 self w = (inl h, (self1, w1)) ->
  _sandbox self1 = Some h
  /\ _ensure_sandbox D cfg uuid4 self1 w1 = (inl h, (self1, w1))
  /\ forall w2, _ensure_sandbox D cfg uuid4 self1 w2 = (inl h, (self1, w2)).
Proof.
  intros H.
  assert (_sandbox self1 = Some h) as Hc.
  { unfold _ensure_sandbox in H. destruct (_sandbox self) as [h0|] eqn:E.
    - by inversion H; subst.
    - destruct (_ || _); [by eapply ensure_local_caches
                         | by eapply ensure_daytona_caches]. }
  split; [done|]. unfold _ensure_sandbox. rewrite Hc. by split.
Qed.

(** The reconciliation keeps a recorded identifier and every field but
    the provider; the provider field is the active provider afterwards,
    whatever it was. *)
Lemma reconcile_spec (pid : pstr) (info : dict) :
  let info' := (reconcile cfg pid info).1 in
  (value_truthy (dict_get info "id") = true ->
   info' !! "id"%string = info !! "id"%string)
  /\ dict_get info' "provider" = VStr (PROVIDER cfg)
  /\ forall k, k <> "id"%string -> k <> "provider"%string -> info' !! k = info !! k.
Proof.
  unfold reconcile.
  destruct (negb (value_truthy (dict_get info "id"))) eqn:Hid;
    case_bool_decide as Hp; simpl; repeat split; try done;
    try (intros Ht; by rewrite Ht in Hid);
    try (unfold dict_get; by rewrite lookup_insert_eq);
    try (intros k H1 H2; by rewrite ?lookup_insert_ne).
  by rewrite lookup_insert_ne.
Qed.

End LifecycleClaims.

Lemma ensure_sandbox_twice_witness :
  exists h self1 w1,
    Lifecycle._ensure_sandbox client_down cfg_local (fun _ => [])
      tool_without_store world_example = (inl h, (self1, w1))
    /\ Lifecycle._ensure_sandbox client_down cfg_local (fun _ => []) self1 w1
       = (inl h, (self1, w1))
    /\ Lifecycle.handle_id h w1 = py "demo-proj".
Proof.
  set (x := Lifecycle._ensure_sandbox client_down cfg_local (fun _ => [])
              tool_without_store world_example).
  set (h := match x.1 with inl h => h | inr _ => Lifecycle.Local 0 end).
  destruct (ensure_sandbox_twice client_down cfg_local (fun _ => [])
              tool_without_store x.2.1 world_example x.2.2 h)
    as (_ & Hsecond & _).
  - vm_compute. reflexivity.
  - exists h, x.2.1, x.2.2. split; [vm_compute; reflexivity|].
    split; [exact Hsecond|]. vm_compute. reflexivity.
Defined.

(** C3: the code at the failing input.  The record of project [p1] was
    written by the remote provider: it has an identifier and the provider
    [daytona].  [_ensure_sandbox] under the local provider returns a handle
    for the recorded identifier and writes the record back with the provider
    [local_process]: a field that was not missing has been overwritten, and
    the provider field no longer names the provider that created the
    sandbox.  The identifier and the other field are as before. *)
Theorem reconciliation_overwrites_provider :
  let before := DB.projects (Lifecycle.db world_example) !! py "p1" in
  let x := Lifecycle._ensure_sandbox client_down cfg_local (fun _ => [])
             tool_example world_example in
  let after := DB.projects (Lifecycle.db x.2.2) !! py "p1" in
  before = Some (DB.mkRow (Some {[ "id"%string := VStr (py "sb-1");
                                   "pass"%string := VStr (py "secret");
                                   "provider"%string := VStr (py "daytona") ]}))
  /\ (exists h, x.1 = inl h /\ Lifecycle.handle_id h x.2.2 = py "sb-1")
  /\ after = Some (DB.mkRow (Some {[ "id"%string := VStr (py "sb-1");
                                     "pass"%string := VStr (py "secret");
                                     "provider"%string := VStr (py "local_process") ]})).
Proof.
  split; [vm_compute; reflexivity|]. split.
  - eexists. split; vm_compute; reflexivity.
  - vm_compute. reflexivity.
Qed.

Lemma destroy_archives_only_witness :
  Lifecycle.heap world_example !! 0%nat = Some sandbox_example
  /\ exists w',
       Lifecycle.destroy_local 0 world_example = Some (true, w')
       /\ Lifecycle.fs w' = Lifecycle.fs world_example.
Proof.
  split; [vm_compute; reflexivity|].
  destruct (destroy_archives_only 0 world_example sandbox_example)
    as [_ (w' & Hd & _ & _ & Hfs & _)]; [vm_compute; reflexivity|].
  exists w'. split; [exact Hd | exact Hfs].
Defined.

(** * Further properties *)

(** ** Directories are only ever added *)

Section Growth.
Import PyStr Pathlib FS Frame.

Lemma grows_refl (fs : FS.t) : grows fs fs.
Proof. repeat split; auto. Qed.

Lemma grows_trans (fs1 fs2 fs3 : FS.t) : grows fs1 fs2 -> grows fs2 fs3 -> grows fs1 fs3.
Proof.
  intros (Hc1 & Hk1 & Hs1 & Hn1) (Hc2 & Hk2 & Hs2 & Hn2).
  split; [congruence|]. split; [congruence|]. split; [auto|].
  intros key Hnone. destruct (Hn1 key Hnone) as [H|[m H]]; [by apply Hn2|].
  right. exists m. by apply Hs2.
Qed.

Lemma walk_grows (tr tr' : gmap (list pstr) node) (cur c : list pstr) (names : list pstr) :
  (forall key n, tr !! key = Some n -> tr' !! key = Some n) ->
  walk tr cur names = inl c -> walk tr' cur names = inl c.
Proof.
  intros Hs. revert cur. induction names as [|x rest IH]; intros cur Hw; [done|].
  simpl in *. destruct (tr !! cur) as [[]|] eqn:E; [done| |done].
  rewrite (Hs _ _ E). by apply IH.
Qed.

Lemma is_dir_grows (fs fs' : FS.t) (p : Path) :
  grows fs fs' -> FS.is_dir fs p = true -> FS.is_dir fs' p = true.
Proof.
  intros (Hc & _ & Hs & _). unfold FS.is_dir, os_stat, locate, start_of. rewrite Hc.
  destruct (walk (tree fs) _ (parts p)) as [c|] eqn:Hw; [|done].
  rewrite (walk_grows _ _ _ _ _ Hs Hw).
  destruct (tree fs !! c) as [n|] eqn:E; [|done]. by rewrite (Hs _ _ E).
Qed.

Lemma os_mkdir_grows (fs fs' : FS.t) (p : Path) :
  os_mkdir fs p = inl fs' -> grows fs fs' /\ FS.is_dir fs' p = true.
Proof.
  unfold os_mkdir. destruct (locate fs p) as [c|] eqn:Hl; [|done].
  destruct (tree fs !! c) eqn:E; [done|]. intros H. inversion H; subst. clear H.
  assert (grows fs (with_tree fs (<[c:=Dir (clock fs)]> (tree fs)))) as Hg.
  { split; [done|]. split; [done|]. split.
    - intros key n Hk. simpl. rewrite lookup_insert_ne; [done|]. congruence.
    - intros key Hk. simpl. destruct (decide (c = key)) as [->|Hne].
      + right. eexists. by rewrite lookup_insert_eq.
      + left. by rewrite lookup_insert_ne. }
  split; [done|]. unfold FS.is_dir, os_stat, locate in *.
  change (start_of (with_tree fs _) (root p)) with (start_of fs (root p)).
  destruct Hg as (_ & _ & Hs & _).
  rewrite (walk_grows _ _ _ _ _ Hs Hl). simpl. by rewrite lookup_insert_eq.
Qed.

Lemma mkdir_exist_ok_grows (fs fs' : FS.t) (p : Path) (r : result unit) :
  mkdir_exist_ok fs p = (r, fs') ->
  grows fs fs' /\ (r = inl tt -> FS.is_dir fs' p = true).
Proof.
  unfold mkdir_exist_ok. destruct (os_mkdir fs p) as [fs1|e] eqn:Hm.
  - intros H. inversion H; subst. destruct (os_mkdir_grows _ _ _ Hm). by split.
  - destruct (FS.is_dir fs p) eqn:Hd; destruct e; intros H; inversion H; subst;
      (split; [apply grows_refl | done]).
Qed.

Lemma mkdir_parents_grows (r0 : pstr) (rparts : list pstr) (fs fs' : FS.t)
    (r : result unit) :
  mkdir_parents r0 rparts fs = (r, fs') ->
  grows fs fs' /\ (r = inl tt -> FS.is_dir fs' (mkPath r0 (rev rparts)) = true).
Proof.
  revert fs fs' r. induction rparts as [|x rparent IH]; intros fs fs' r;
    rewrite mkdir_parents_unfold;
    destruct (os_mkdir fs _) as [fs1|e] eqn:Hm.
  - intros H. inversion H; subst. destruct (os_mkdir_grows _ _ _ Hm). by split.
  - destruct (FS.is_dir fs _) eqn:Hd; destruct e; intros H; inversion H; subst;
      (split; [apply grows_refl | done]).
  - intros H. inversion H; subst. destruct (os_mkdir_grows _ _ _ Hm). by split.
  - destruct (decide (e = FileNotFoundError)) as [->|Hne].
    + destruct (mkdir_parents r0 rparent fs) as [[u|e'] fs1] eqn:Hp.
      * destruct (IH _ _ _ Hp) as [Hg1 _]. intros H.
        destruct (mkdir_exist_ok_grows _ _ _ _ H) as [Hg2 Hd].
        split; [by eapply grows_trans|done].
      * destruct (IH _ _ _ Hp) as [Hg1 _]. intros H. inversion H; subst. by split.
    + destruct (FS.is_dir fs _) eqn:Hd; destruct e; try done;
        intros H; inversion H; subst; (split; [apply grows_refl | done]).
Qed.

Lemma mkdir_grows (fs fs' : FS.t) (p : Path) (r : result unit) :
  FS.mkdir fs p = (r, fs') ->
  grows fs fs' /\ (r = inl tt -> FS.is_dir fs' p = true).
Proof.
  unfold FS.mkdir. intros H. destruct (mkdir_parents_grows _ _ _ _ _ H) as [Hg Hd].
  split; [done|]. intros Hr. specialize (Hd Hr). rewrite rev_involutive in Hd.
  by destruct p.
Qed.

Lemma same_kind_refl (n : node) : same_kind n n.
Proof. destruct n; simpl; [done | by eexists]. Qed.

Lemma grows_extends (fs fs' : FS.t) : grows fs fs' -> extends fs fs'.
Proof.
  intros (Hc & _ & Hs & Hn). split; [done|]. split; [|done].
  intros key n Hk. exists n. split; [by apply Hs | apply same_kind_refl].
Qed.

End Growth.

(** ** Creating the workspace and uploading leave the rest alone *)

Section WorkspaceCreation.
Import PyStr Pathlib FS Frame LocalProcess.

Lemma create_spec (sandbox_id root : pstr) (fs fs' : FS.t)
    (sb : LocalProcessSandbox) :
  create sandbox_id root fs = (inl sb, fs') ->
  sb = mkSandbox sandbox_id root (py "RUNNING")
  /\ FS.is_dir fs' (_root sb) = true
  /\ FS.is_dir fs' (_venvs sb) = true
  /\ grows fs fs'.
Proof.
  unfold create, bind.
  destruct (FS.mkdir fs _) as [[u1|e1] fs1] eqn:H1; [|done].
  destruct (FS.mkdir fs1 _) as [[u2|e2] fs2] eqn:H2; [|done].
  intros H. inversion H; subst. clear H.
  destruct (mkdir_grows _ _ _ _ H1) as [Hg1 Hd1].
  destruct (mkdir_grows _ _ _ _ H2) as [Hg2 Hd2].
  destruct u1, u2. split; [done|]. split; [|split].
  - eapply is_dir_grows; [exact Hg2|]. by apply Hd1.
  - by apply Hd2.
  - by eapply grows_trans.
Qed.

(** X1.  When the constructor of [LocalProcessSandbox] returns, the sandbox
    has the given id and root and the state [RUNNING], its workspace root and
    the [.venvs] directory in it are directories, and the file system has
    only been extended: every regular file is unchanged, every directory is
    still a directory, and what is new is a directory. *)
Theorem create_makes_workspace (sandbox_id root : pstr) (fs fs' : FS.t)
    (sb : LocalProcessSandbox) :
  create sandbox_id root fs = (inl sb, fs') ->
  sb = mkSandbox sandbox_id root (py "RUNNING")
  /\ FS.is_dir fs' (_root sb) = true
  /\ FS.is_dir fs' (_venvs sb) = true
  /\ extends fs fs'.
Proof.
  intros H. apply create_spec in H as (? & ? & ? & Hg).
  by apply grows_extends in Hg.
Qed.

Lemma write_bytes_frame (fs fs' : FS.t) (p : Path) (data : bytes) (r : result Z) :
  write_bytes fs p data = (r, fs') ->
  fs' = fs
  \/ exists c, locate fs p = inl c /\ locate fs' p = inl c
               /\ is_dir_node (tree fs !! c) = false
               /\ fs' = with_tree fs (<[c := File data (clock fs)]> (tree fs)).
Proof.
  unfold write_bytes. destruct (locate fs p) as [c|e] eqn:Hl.
  - destruct (is_dir_node (tree fs !! c)) eqn:Hd.
    + destruct (tree fs !! c) as [[]|]; try done. intros H. inversion H. by left.
    + intros H. right. exists c.
      assert (fs' = with_tree fs (<[c:=File data (clock fs)]> (tree fs))) as ->.
      { destruct (tree fs !! c) as [[]|]; by inversion H. }
      split; [done|]. split; [|done]. unfold locate in *.
      change (start_of (with_tree fs _) (root p)) with (start_of fs (root p)).
      by apply walk_insert_file.
  - intros H. inversion H. by left.
Qed.

Lemma upload_file_frame
    (self : _LocalFS) (data : bytes) (path : pstr) (fs fs' : FS.t)
    (r : result unit) :
  upload_file self data path fs = (r, fs') ->
  (forall key m, tree fs !! key = Some (Dir m) -> tree fs' !! key = Some (Dir m))
  /\ (forall key d m, tree fs !! key = Some (File d m) ->
        tree fs' !! key = Some (File d m)
        \/ (locate fs' (_abs self path) = inl key
            /\ tree fs' !! key = Some (File data (clock fs))))
  /\ (forall key, tree fs !! key = None ->
        tree fs' !! key = None
        \/ (exists m, tree fs' !! key = Some (Dir m))
        \/ (locate fs' (_abs self path) = inl key
            /\ tree fs' !! key = Some (File data (clock fs)))).
Proof.
  unfold upload_file, bind.
  destruct (FS.mkdir fs _) as [[u|e] fs1] eqn:Hm.
  2: { intros H. inversion H; subst.
       destruct (mkdir_grows _ _ _ _ Hm) as [(_ & _ & Hs & Hn) _].
       split; [auto|]. split; [auto|].
       intros key Hk. destruct (Hn key Hk) as [?|?]; auto. }
  destruct (mkdir_grows _ _ _ _ Hm) as [(_ & Hclock & Hs & Hn) _].
  destruct (write_bytes fs1 _ data) as [r2 fs2] eqn:Hw. intros H.
  assert (fs' = fs2) as -> by (destruct r2; by inversion H). clear H.
  destruct (write_bytes_frame _ _ _ _ _ Hw) as [->|(c & Hl1 & Hl2 & Hnd & ->)].
  { split; [auto|]. split; [auto|].
    intros key Hk. destruct (Hn key Hk) as [?|?]; auto. }
  rewrite Hclock in *. simpl. split; [|split].
  - intros key m Hk. rewrite lookup_insert_ne; [by apply Hs|].
    intros ->. by rewrite (Hs _ _ Hk) in Hnd.
  - intros key d m Hk. destruct (decide (c = key)) as [->|Hne].
    + right. split; [done|]. by rewrite lookup_insert_eq.
    + left. rewrite lookup_insert_ne by done. by apply Hs.
  - intros key Hk. destruct (decide (c = key)) as [->|Hne].
    + right. right. split; [done|]. by rewrite lookup_insert_eq.
    + rewrite lookup_insert_ne by done.
      destruct (Hn key Hk) as [?|?]; auto.
Qed.

(** X2.  Whatever [upload_file] returns or raises, it has removed nothing
    and overwritten at most the file its path denotes: every directory is
    still a directory, every other regular file is unchanged, and what is
    new is a directory or the uploaded file. *)
Theorem upload_file_touches_target_only
    (self : _LocalFS) (data : bytes) (path : pstr) (fs fs' : FS.t)
    (r : result unit) :
  upload_file self data path fs = (r, fs') ->
  (forall key m, tree fs !! key = Some (Dir m) ->
     exists m', tree fs' !! key = Some (Dir m'))
  /\ (forall key d m, tree fs !! key = Some (File d m) ->
        tree fs' !! key = Some (File d m)
        \/ (locate fs' (_abs self path) = inl key
            /\ exists m', tree fs' !! key = Some (File data m')))
  /\ (forall key, tree fs !! key = None ->
        tree fs' !! key = None
        \/ (exists m, tree fs' !! key = Some (Dir m))
        \/ (locate fs' (_abs self path) = inl key
            /\ exists m', tree fs' !! key = Some (File data m'))).
Proof.
  intros H. apply upload_file_frame in H as (Hd & Hf & Hn).
  split; [|split].
  - intros key m Hk. exists m. by apply Hd.
  - intros key d m Hk. destruct (Hf key d m Hk) as [?|[? ?]]; [by left|].
    right. split; [done|]. by eexists.
  - intros key Hk. destruct (Hn key Hk) as [?|[?|[? ?]]]; [by left|by right; left|].
    right. right. split; [done|]. by eexists.
Qed.

(** X3.  [ensure_project_workspace_exists] returns the project directory;
    under the provider [local_process] that directory exists when the call
    returns and the file system has only been extended, by directories;
    under any other provider the file system is not touched. *)
Theorem ensure_project_workspace_exists_spec
    (cfg : WorkspaceConfig.t) (project_id d : pstr) (fs fs' : FS.t) :
  WorkspaceOps.ensure_project_workspace_exists cfg project_id fs = (inl d, fs') ->
  d = WorkspaceConfig.get_project_directory_path cfg project_id
  /\ extends fs fs'
  /\ if eqb (WorkspaceConfig.PROVIDER cfg) (py "local_process")
     then FS.is_dir fs' (parse d) = true
     else fs' = fs.
Proof.
  unfold WorkspaceOps.ensure_project_workspace_exists, bind.
  destruct (eqb _ _).
  - destruct (FS.mkdir fs _) as [[u|e] fs1] eqn:Hm; [|done].
    intros H. inversion H; subst. destruct u.
    destruct (mkdir_grows _ _ _ _ Hm) as [Hg Hd]. apply grows_extends in Hg. auto.
  - intros H. inversion H; subst. split; [done|].
    split; [apply grows_extends, grows_refl|done].
Qed.

End WorkspaceCreation.

Lemma create_makes_workspace_witness :
  exists sb fs',
    LocalProcess.create (py "demo") (py "/workspace") fs_empty = (inl sb, fs')
    /\ FS.is_dir fs' (Pathlib.parse (py "/workspace/.venvs")) = true.
Proof.
  set (x := LocalProcess.create (py "demo") (py "/workspace") fs_empty).
  destruct (create_makes_workspace (py "demo") (py "/workspace") fs_empty x.2
              (LocalProcess.mkSandbox (py "demo") (py "/workspace") (py "RUNNING")))
    as (_ & _ & Hv & _); [vm_compute; reflexivity|].
  eexists _, x.2. split; [vm_compute; reflexivity | exact Hv].
Defined.

Lemma upload_file_touches_target_only_witness :
  exists m,
    FS.tree (LocalProcess.upload_file local_fs [x61]%byte (py "notes.txt") fs_sub).2
      !! [py "workspace"; py "sub"] = Some (FS.Dir m).
Proof.
  set (x := LocalProcess.upload_file local_fs [x61]%byte (py "notes.txt") fs_sub).
  destruct (upload_file_touches_target_only local_fs [x61]%byte (py "notes.txt")
              fs_sub x.2 x.1) as (Hd & _ & _); [apply surjective_pairing|].
  apply (Hd _ 1%Z). vm_compute. reflexivity.
Defined.

Lemma ensure_project_workspace_exists_spec_witness :
  exists fs',
    WorkspaceOps.ensure_project_workspace_exists cfg_local (py "p") fs_empty
    = (inl (py "/workspace"), fs')
    /\ FS.is_dir fs' (Pathlib.parse (py "/workspace")) = true.
Proof.
  set (x := WorkspaceOps.ensure_project_workspace_exists cfg_local (py "p") fs_empty).
  destruct (ensure_project_workspace_exists_spec cfg_local (py "p") (py "/workspace")
              fs_empty x.2) as (_ & _ & Hd); [vm_compute; reflexivity|].
  exists x.2. split; [vm_compute; reflexivity | exact Hd].
Defined.

(** ** The sandbox of a tool and the store *)

Section StoreFrame.
Import PyStr Pathlib Lifecycle.
Context {R : Type}.
Variable D : Daytona.Client R.
Variable cfg : WorkspaceConfig.t.
Variable uuid4 : nat -> pstr.

Lemma bind_inv {S A B : Type} (m : result A * S) (k : A -> S -> result B * S)
    (r : result B) (s' : S) :
  bind m k = (r, s') ->
  (exists e, m = (inr e, s') /\ r = inr e)
  \/ (exists a s, m = (inl a, s) /\ k a s = (r, s')).
Proof.
  destruct m as [[a|e] s]; simpl; intros H.
  - right. by exists a, s.
  - left. exists e. by inversion H.
Qed.

Lemma on_remote_store {A : Type} (f : R -> result A * R) (w w' : @World R)
    (r : result A) :
  on_remote f w = (r, w') ->
  db w' = db w /\ fs w' = fs w /\ heap w' = heap w /\ drawn w' = drawn w.
Proof.
  unfold on_remote. destruct (f (remote w)) as [r0 x]. intros H.
  by inversion H; subst.
Qed.

Lemma new_local_store (sid root : pstr) (w w' : @World R) (r : result handle) :
  new_local sid root w = (r, w') ->
  db w' = db w /\ remote w' = remote w /\ drawn w' = drawn w.
Proof.
  unfold new_local, on_fs.
  destruct (LocalProcess.create sid root (fs w)) as [[obj|e] f]; simpl; intros H;
    by inversion H; subst.
Qed.

Lemma start_supervisord_session_store (sb : Daytona.Sandbox) (w w' : @World R)
    (r : result unit) :
  start_supervisord_session D sb w = (r, w') -> db w' = db w.
Proof.
  unfold start_supervisord_session. intros H.
  apply bind_inv in H as [(e & H & _)|(a & s & H1 & H2)].
  - by apply on_remote_store in H as [? _].
  - apply on_remote_store in H1 as [H1 _]. apply on_remote_store in H2 as [H2 _].
    congruence.
Qed.

Lemma get_or_start_sandbox_store (sid : pstr) (w w' : @World R) (r : result handle) :
  get_or_start_sandbox D cfg sid w = (r, w') -> db w' = db w.
Proof.
  unfold get_or_start_sandbox. destruct (eqb (PROVIDER cfg) (py "daytona")).
  - intros H. apply bind_inv in H as [(e & H & _)|(sb & w1 & H1 & H)].
    { by apply on_remote_store in H as [? _]. }
    apply on_remote_store in H1 as [H1 _].
    assert (forall r w', bind (on_remote (Daytona.start D sb) w1)
              (fun _ w2 => bind (on_remote (Daytona.get D sid) w2)
                (fun sandbox' w3 => bind (start_supervisord_session D sandbox' w3)
                  (fun _ w4 => (inl (Remote sandbox'), w4)))) = (r, w') ->
            db w' = db w1) as Hstart.
    { clear H. intros r0 w0 H0.
      apply bind_inv in H0 as [(e & H & _)|(u & w2 & H2 & H)].
      { by apply on_remote_store in H as [? _]. }
      apply on_remote_store in H2 as [H2 _].
      apply bind_inv in H as [(e & H & _)|(sb' & w3 & H3 & H)].
      { apply on_remote_store in H as [? _]. congruence. }
      apply on_remote_store in H3 as [H3 _].
      apply bind_inv in H as [(e & H & _)|(u' & w4 & H4 & H)].
      { apply start_supervisord_session_store in H. congruence. }
      apply start_supervisord_session_store in H4. inversion H; subst. congruence. }
    destruct (Daytona.state sb);
      first [ apply Hstart in H; congruence | inversion H; subst; congruence ].
  - destruct (eqb (PROVIDER cfg) (py "local_process")).
    + intros H. by apply new_local_store in H as [? _].
    + intros H. by inversion H.
Qed.

Lemma create_sandbox_store (pass : pstr) (pid : option pstr) (w w' : @World R)
    (r : result handle) :
  create_sandbox D cfg pass pid w = (r, w') -> db w' = db w /\ drawn w' = drawn w.
Proof.
  unfold create_sandbox. destruct (eqb (PROVIDER cfg) (py "daytona")).
  - intros H. apply bind_inv in H as [(e & H & _)|(sb & w1 & H1 & H)].
    { apply on_remote_store in H. tauto. }
    apply on_remote_store in H1 as (H1 & _ & _ & H1d).
    apply bind_inv in H as [(e & H & _)|(u & w2 & H2 & H)].
    + unfold start_supervisord_session in H.
      apply bind_inv in H as [(e' & H & _)|(a & s & H3 & H4)].
      * apply on_remote_store in H as (? & _ & _ & ?). split; congruence.
      * apply on_remote_store in H3 as (? & _ & _ & ?).
        apply on_remote_store in H4 as (? & _ & _ & ?). split; congruence.
    + inversion H; subst. clear H. unfold start_supervisord_session in H2.
      apply bind_inv in H2 as [(e' & H & _)|(a & s & H3 & H4)].
      * apply on_remote_store in H as (? & _ & _ & ?). split; congruence.
      * apply on_remote_store in H3 as (? & _ & _ & ?).
        apply on_remote_store in H4 as (? & _ & _ & ?). split; congruence.
  - destruct (eqb (PROVIDER cfg) (py "local_process")).
    + intros H. apply new_local_store in H. tauto.
    + intros H. by inversion H.
Qed.

Lemma preview_link_store (h : handle) (port : Z) (w w' : @World R)
    (r : result Daytona.Link) :
  preview_link D h port w = (r, w') -> db w' = db w /\ drawn w' = drawn w.
Proof.
  destruct h; simpl.
  - intros H. by inversion H.
  - intros H. apply on_remote_store in H. tauto.
Qed.

Lemma preview_fields_store (h : handle) (w w' : @World R) (x : value * value * value) :
  preview_fields D h w = (x, w') -> db w' = db w /\ drawn w' = drawn w.
Proof.
  unfold preview_fields.
  destruct (preview_link D h 6080 w) as [[l1|e1] w1] eqn:H1;
    apply preview_link_store in H1 as [Ha Hb].
  - destruct (preview_link D h 8080 w1) as [[l2|e2] w2] eqn:H2;
      apply preview_link_store in H2 as [Hc Hd];
      intros Hx; inversion Hx; subst; split; congruence.
  - intros Hx. inversion Hx; subst. done.
Qed.

Lemma delete_sandbox_store (sid : pstr) (w w' : @World R) (r : result bool) :
  delete_sandbox D cfg sid w = (r, w') -> db w' = db w.
Proof.
  unfold delete_sandbox. destruct (eqb (PROVIDER cfg) (py "daytona")).
  - intros H. apply bind_inv in H as [(e & H & _)|(sb & w1 & H1 & H)].
    { by apply on_remote_store in H as [? _]. }
    apply on_remote_store in H1 as [H1 _].
    apply bind_inv in H as [(e & H & _)|(u & w2 & H2 & H)].
    + apply on_remote_store in H as [? _]. congruence.
    + apply on_remote_store in H2 as [? _]. inversion H; subst. congruence.
  - destruct (eqb (PROVIDER cfg) (py "local_process")); intros H; by inversion H.
Qed.

Lemma fetch_store (self self1 : SandboxToolsBase) (w w1 : @World R) (r : result handle) :
  fetch D cfg self w = (r, (self1, w1)) -> db w1 = db w.
Proof.
  unfold fetch. destruct (as_str (_sandbox_id self)).
  - destruct (get_or_start_sandbox D cfg _ w) as [[h|e] w'] eqn:Hg;
      apply get_or_start_sandbox_store in Hg; intros H; inversion H; subst; done.
  - intros H. by inversion H.
Qed.

Lemma update_frame (d : DB.t) (pid : pstr) (info : dict) :
  let d' := (DB.update d pid info).2 in
  (forall other, other <> pid -> DB.projects d' !! other = DB.projects d !! other)
  /\ (DB.projects d !! pid = None -> DB.projects d' !! pid = None)
  /\ (forall row, DB.projects d !! pid = Some row ->
        DB.projects d' !! pid = Some row
        \/ DB.projects d' !! pid = Some (DB.mkRow (Some info))).
Proof.
  unfold DB.update. destruct (DB.projects d !! pid) as [row|] eqn:Hrow.
  - destruct (DB.accepts_updates d); simpl.
    + split; [|split].
      * intros other Hne. by rewrite lookup_insert_ne.
      * done.
      * intros row' _. right. by rewrite lookup_insert_eq.
    + split; [done|]. split; [done|]. intros row' [= <-]. by left.
  - simpl. split; [done|]. split; [done|]. done.
Qed.

(** What [_ensure_sandbox] does to the store: nothing, or one update of
    the record of the project, which has no recorded id or keeps it. *)
Lemma ensure_sandbox_store
    (self self1 : SandboxToolsBase) (w w1 : @World R) (r : result handle) :
  _ensure_sandbox D cfg uuid4 self w = (r, (self1, w1)) ->
  db w1 = db w
  \/ exists row info,
       DB.projects (db w) !! project_id self = Some row
       /\ db w1 = (DB.update (db w) (project_id self) info).2
       /\ (value_truthy (dict_get (sandbox_info_of row) "id") = true ->
           info !! "id"%string = sandbox_info_of row !! "id"%string).
Proof.
  unfold _ensure_sandbox. destruct (_sandbox self) as [h|].
  { intros H. inversion H; subst. by left. }
  destruct (_ || _).
  - (* the local branch *)
    unfold ensure_local. destruct (db_client self w).
    + unfold DB.select.
      destruct (DB.projects (db w) !! project_id self) as [row|] eqn:Hrow.
      2: { intros H. inversion H; subst. by left. }
      destruct (reconcile cfg (project_id self) (sandbox_info_of row))
        as [info must_update] eqn:Hrec.
      pose proof (reconcile_spec cfg (project_id self) (sandbox_info_of row)) as Hspec.
      rewrite Hrec in Hspec. simpl in Hspec. destruct Hspec as (Hid & _ & _).
      intros H.
      assert (db w1 = db (if must_update
                          then with_db w (DB.update (db w) (project_id self) info).2
                          else w)) as Hdb.
      { destruct (fetch D cfg _ _) as [[h|e] [self2 w2]] eqn:Hf;
          apply fetch_store in Hf.
        - destruct (FS.mkdir (fs w2) _) as [[u|e] f]; inversion H; subst; done.
        - inversion H; subst. done. }
      destruct must_update; [|by left].
      right. exists row, info. done.
    + intros H. left.
      destruct (fetch D cfg _ w) as [[h|e] [self2 w2]] eqn:Hf;
        apply fetch_store in Hf.
      * destruct (FS.mkdir (fs w2) _) as [[u|e] f]; inversion H; subst; done.
      * inversion H; subst. done.
  - (* the remote branch *)
    unfold ensure_daytona. destruct (negb (db_client self w)).
    { intros H. inversion H; subst. by left. }
    unfold DB.select.
    destruct (DB.projects (db w) !! project_id self) as [row|] eqn:Hrow.
    2: { intros H. inversion H; subst. by left. }
    destruct (negb (value_truthy (dict_get (sandbox_info_of row) "id"))) eqn:Hid.
    2: { intros H. apply fetch_store in H. by left. }
    apply negb_true_iff in Hid.
    destruct (create_sandbox D cfg _ _ _) as [[sandbox_obj|e] w1'] eqn:Hc;
      apply create_sandbox_store in Hc as [Hc _]; simpl in Hc.
    2: { intros H. inversion H; subst. by left. }
    destruct (preview_fields D sandbox_obj w1') as [[[vnc_url website_url] token] w2] eqn:Hp.
    apply preview_fields_store in Hp as [Hp _].
    destruct (DB.update (db w2) (project_id self) _) as [data db'] eqn:Hu.
    intros H. right. eexists row, _. split; [done|]. split.
    2: { intros Ht. congruence. }
    rewrite <- Hc, <- Hp, Hu. simpl. destruct data.
    + destruct (delete_sandbox D cfg _ (with_db w2 db')) as [r' w'] eqn:Hd.
      apply delete_sandbox_store in Hd. inversion H; subst. done.
    + by apply fetch_store in H.
Qed.

(** X4.  Whatever [_ensure_sandbox] does and however it ends, the records
    of the other projects are unchanged, no record is made for a project
    that has none, and a sandbox id that is recorded for the project of the
    tool is still the recorded id afterwards. *)
Theorem ensure_sandbox_keeps_recorded_id
    (self self1 : SandboxToolsBase) (w w1 : @World R) (r : result handle) :
  _ensure_sandbox D cfg uuid4 self w = (r, (self1, w1)) ->
  (forall other, other <> project_id self ->
     DB.projects (db w1) !! other = DB.projects (db w) !! other)
  /\ (DB.projects (db w) !! project_id self = None ->
      DB.projects (db w1) !! project_id self = None)
  /\ (forall row, DB.projects (db w) !! project_id self = Some row ->
        value_truthy (dict_get (sandbox_info_of row) "id") = true ->
        exists row', DB.projects (db w1) !! project_id self = Some row'
                     /\ dict_get (sandbox_info_of row') "id"
                        = dict_get (sandbox_info_of row) "id").
Proof.
  intros H. apply ensure_sandbox_store in H as [->|(row & info & Hrow & -> & Hid)].
  { split; [done|]. split; [done|]. intros row Hrow _. by exists row. }
  destruct (update_frame (db w) (project_id self) info) as (Ho & Hn & Hs).
  split; [done|]. split; [done|]. intros row' Hrow' Ht.
  assert (row' = row) as -> by congruence.
  destruct (Hs row Hrow) as [Hk|Hk]; rewrite Hk; [by eexists|].
  eexists. split; [done|]. unfold sandbox_info_of at 1. simpl.
  unfold dict_get. by rewrite (Hid Ht).
Qed.

(** X5.  With access to the store and no record of the project,
    [_ensure_sandbox] raises [ValueError] under every provider, and neither
    the tool nor anything else has changed. *)
Theorem ensure_sandbox_project_missing (self : SandboxToolsBase) (w : @World R) :
  _sandbox self = None ->
  db_client self w = true ->
  DB.projects (db w) !! project_id self = None ->
  _ensure_sandbox D cfg uuid4 self w
  = (inr (ValueError "Project not found in DB"), (self, w)).
Proof.
  intros Hs Hc Hp. unfold _ensure_sandbox, ensure_local, ensure_daytona, DB.select.
  rewrite Hs, Hc, Hp. simpl. by destruct (_ || _).
Qed.

Lemma fetch_inv (self self1 : SandboxToolsBase) (w w1 : @World R) (h : handle) :
  fetch D cfg self w = (inl h, (self1, w1)) ->
  exists sid, _sandbox_id self = VStr sid
              /\ self1 = set_sandbox self h
              /\ get_or_start_sandbox D cfg sid w = (inl h, w1).
Proof.
  unfold fetch. destruct (_sandbox_id self) as [| | |sid]; simpl; try done.
  destruct (get_or_start_sandbox D cfg sid w) as [[h'|e] w'] eqn:Hg; [|done].
  intros H. inversion H; subst. by exists sid.
Qed.

Lemma new_local_spec (sid root : pstr) (w w' : @World R) (h : handle) :
  new_local sid root w = (inl h, w') ->
  exists ref,
    h = Local ref
    /\ heap w !! ref = None
    /\ heap w' = <[ref := LocalProcess.mkSandbox sid root (py "RUNNING")]> (heap w)
    /\ FS.is_dir (fs w') (parse root) = true
    /\ Frame.grows (fs w) (fs w')
    /\ db w' = db w /\ remote w' = remote w /\ drawn w' = drawn w.
Proof.
  unfold new_local, on_fs.
  destruct (LocalProcess.create sid root (fs w)) as [[obj|e] f] eqn:Hc; simpl; [|done].
  apply create_spec in Hc as (-> & Hroot & _ & Hg).
  intros H. inversion H; subst. clear H. eexists. split; [done|]. simpl.
  split; [|done]. apply not_elem_of_dom. apply is_fresh.
Qed.

Lemma provider_local_not_daytona :
  eqb (py "local_process") (py "daytona") = false.
Proof. reflexivity. Qed.

(** X6.  Under the local provider, when [_ensure_sandbox] returns for a
    tool that held no sandbox, the handle is a new sandbox object in the
    state [RUNNING] whose id is the id the tool now holds (the id of the
    project when the store is not used); the objects there were are
    unchanged; the workspace root and the workspace of the tool are
    directories; the file system has only been extended, by directories,
    and the remote platform was not called. *)
Theorem ensure_sandbox_local_postconditions
    (self self1 : SandboxToolsBase) (w w1 : @World R) (h : handle) :
  WorkspaceConfig.PROVIDER cfg = py "local_process" ->
  _sandbox self = None ->
  _ensure_sandbox D cfg uuid4 self w = (inl h, (self1, w1)) ->
  exists ref sid,
    h = Local ref
    /\ heap w !! ref = None
    /\ heap w1 = <[ref := LocalProcess.mkSandbox sid (WorkspaceConfig.WORKSPACE_ROOT cfg)
                           (py "RUNNING")]> (heap w)
    /\ _sandbox_id self1 = VStr sid
    /\ (db_client self w = false -> sid = project_id self)
    /\ FS.is_dir (fs w1) (parse (WorkspaceConfig.WORKSPACE_ROOT cfg)) = true
    /\ FS.is_dir (fs w1) (parse (workspace_path self)) = true
    /\ Frame.extends (fs w) (fs w1)
    /\ remote w1 = remote w.
Proof.
  intros Hprov Hs. unfold _ensure_sandbox. rewrite Hs. unfold PROVIDER.
  rewrite Hprov. rewrite eqb_refl. simpl. unfold ensure_local.
  set (prepared := if db_client self w then _ else _).
  assert (forall self0 w0, prepared = inl (self0, w0) ->
            workspace_path self0 = workspace_path self
            /\ (db_client self w = false -> _sandbox_id self0 = VStr (project_id self))
            /\ fs w0 = fs w /\ heap w0 = heap w /\ remote w0 = remote w) as Hprep.
  { unfold prepared. intros self0 w0. destruct (db_client self w).
    - destruct (DB.select _ _) as [|project_data ?]; [done|].
      destruct (reconcile _ _ _) as [info must_update]. intros [= <- <-].
      split; [done|]. split; [done|]. by destruct must_update.
    - by intros [= <- <-]. }
  destruct prepared as [[self0 w0]|e]; [|done].
  destruct (Hprep self0 w0 eq_refl) as (Hwp & Hnodb & Hfs & Hheap & Hrem).
  destruct (fetch D cfg self0 w0) as [[h'|e] [self2 w2]] eqn:Hf; [|done].
  apply fetch_inv in Hf as (sid & Hsid & -> & Hg).
  unfold get_or_start_sandbox, PROVIDER in Hg.
  rewrite Hprov, provider_local_not_daytona, eqb_refl in Hg.
  apply new_local_spec in Hg as (ref & -> & Hfresh & Hheap2 & Hroot & Hgrow & _ & Hrem2 & _).
  assert (WorkspaceConfig.get_project_workspace_path cfg sid
          = WorkspaceConfig.WORKSPACE_ROOT cfg) as Hpath.
  { unfold WorkspaceConfig.get_project_workspace_path. by destruct (eqb _ _). }
  rewrite Hpath in *.
  destruct (FS.mkdir (fs w2) _) as [[u|e] f] eqn:Hm; [|done].
  intros H. inversion H; subst. clear H. simpl.
  destruct (mkdir_grows _ _ _ _ Hm) as [Hg2 Hd2]. simpl in Hd2.
  exists ref, sid. split; [done|]. split; [congruence|]. split; [congruence|].
  split; [done|]. split.
  { intros Hno. specialize (Hnodb Hno). congruence. }
  split. { eapply is_dir_grows; [exact Hg2 | exact Hroot]. }
  split. { rewrite <- Hwp. apply Hd2. by destruct u. }
  split. { rewrite <- Hfs. apply grows_extends. eapply grows_trans; [exact Hgrow | exact Hg2]. }
  congruence.
Qed.

(** X7.  Under the remote provider, when the record of the project has no
    sandbox id and [_ensure_sandbox] returns, the record holds a new
    description: an id, the password that was drawn and the provider
    [daytona]; the tool holds the same id and password. *)
Theorem ensure_sandbox_records_created_sandbox
    (self self1 : SandboxToolsBase) (w w1 : @World R) (h : handle) (row : DB.row) :
  WorkspaceConfig.PROVIDER cfg = py "daytona" ->
  _sandbox self = None ->
  DB.projects (db w) !! project_id self = Some row ->
  value_truthy (dict_get (sandbox_info_of row) "id") = false ->
  _ensure_sandbox D cfg uuid4 self w = (inl h, (self1, w1)) ->
  exists sid info,
    DB.projects (db w1) !! project_id self = Some (DB.mkRow (Some info))
    /\ dict_get info "id" = VStr sid
    /\ dict_get info "pass" = VStr (uuid4 (drawn w))
    /\ dict_get info "provider" = VStr (py "daytona")
    /\ _sandbox_id self1 = VStr sid
    /\ _sandbox_pass self1 = VStr (uuid4 (drawn w))
    /\ _sandbox self1 = Some h.
Proof.
  intros Hprov Hs Hrow Hid. unfold _ensure_sandbox. rewrite Hs. unfold PROVIDER.
  rewrite Hprov.
  change (eqb (py "daytona") (py "local_process") || eqb (py "daytona") (py "local_docker"))
    with false.
  cbv iota. unfold ensure_daytona. destruct (negb (db_client self w)); [done|].
  unfold DB.select. rewrite Hrow, Hid. simpl negb. cbv iota.
  destruct (create_sandbox D cfg _ _ _) as [[sandbox_obj|e] w1'] eqn:Hc; [|done].
  apply create_sandbox_store in Hc as [Hc _]. simpl in Hc.
  destruct (preview_fields D sandbox_obj w1') as [[[vnc_url website_url] token] w2] eqn:Hp.
  apply preview_fields_store in Hp as [Hp _].
  unfold DB.update. rewrite Hp, Hc, Hrow.
  destruct (DB.accepts_updates (db w)); [|done].
  intros Hf. pose proof (fetch_store _ _ _ _ _ Hf) as Hdb.
  apply fetch_inv in Hf as (sid & Hsid & -> & _). simpl in Hsid, Hdb.
  injection Hsid as <-.
  eexists _, _. rewrite Hdb. simpl. rewrite lookup_insert_eq.
  split; [done|]. done.
Qed.

(** X8.  Under the remote provider, when the record of the project has no
    sandbox id and the store does not accept the update, [_ensure_sandbox]
    raises whatever the platform does; the tool holds nothing new and the
    store is as before. *)
Theorem ensure_sandbox_update_refused
    (self self1 : SandboxToolsBase) (w w1 : @World R) (r : result handle) (row : DB.row) :
  WorkspaceConfig.PROVIDER cfg = py "daytona" ->
  _sandbox self = None ->
  DB.projects (db w) !! project_id self = Some row ->
  value_truthy (dict_get (sandbox_info_of row) "id") = false ->
  DB.accepts_updates (db w) = false ->
  _ensure_sandbox D cfg uuid4 self w = (r, (self1, w1)) ->
  (exists e, r = inr e) /\ self1 = self /\ db w1 = db w.
Proof.
  intros Hprov Hs Hrow Hid Hacc. unfold _ensure_sandbox. rewrite Hs. unfold PROVIDER.
  rewrite Hprov.
  change (eqb (py "daytona") (py "local_process") || eqb (py "daytona") (py "local_docker"))
    with false.
  cbv iota. unfold ensure_daytona. destruct (negb (db_client self w)).
  { intros H. inversion H; subst. split; [by eexists|done]. }
  unfold DB.select. rewrite Hrow, Hid. simpl negb. cbv iota.
  destruct (create_sandbox D cfg _ _ _) as [[sandbox_obj|e] w1'] eqn:Hc;
    apply create_sandbox_store in Hc as [Hc _]; simpl in Hc.
  2: { intros H. inversion H; subst. split; [by eexists|done]. }
  destruct (preview_fields D sandbox_obj w1') as [[[vnc_url website_url] token] w2] eqn:Hp.
  apply preview_fields_store in Hp as [Hp _].
  unfold DB.update. rewrite Hp, Hc, Hrow, Hacc.
  destruct (delete_sandbox D cfg _ (with_db w2 (db w))) as [r' w'] eqn:Hd.
  apply delete_sandbox_store in Hd. simpl in Hd.
  intros H. inversion H; subst. split; [by eexists|done].
Qed.

(** X9.  Under the local provider [get_or_start_sandbox] never hands out
    a sandbox object twice: two calls for the same id return two different
    objects, both with that id, and the second call leaves the object of
    the first as it is. *)
Theorem local_get_or_start_is_not_shared
    (sid : pstr) (w w1 w2 : @World R) (h1 h2 : handle) :
  WorkspaceConfig.PROVIDER cfg = py "local_process" ->
  get_or_start_sandbox D cfg sid w = (inl h1, w1) ->
  get_or_start_sandbox D cfg sid w1 = (inl h2, w2) ->
  h1 <> h2
  /\ handle_id h1 w2 = sid /\ handle_id h2 w2 = sid
  /\ exists ref1, h1 = Local ref1 /\ heap w2 !! ref1 = heap w1 !! ref1.
Proof.
  intros Hprov. unfold get_or_start_sandbox, PROVIDER.
  rewrite Hprov, provider_local_not_daytona, eqb_refl.
  intros H1 H2.
  apply new_local_spec in H1 as (ref1 & -> & _ & Hh1 & _).
  apply new_local_spec in H2 as (ref2 & -> & Hf2 & Hh2 & _).
  assert (ref1 <> ref2) as Hne.
  { intros <-. rewrite Hh1, lookup_insert_eq in Hf2. done. }
  split; [congruence|]. simpl. rewrite Hh2.
  rewrite lookup_insert_ne by done. rewrite lookup_insert_eq.
  rewrite Hh1, lookup_insert_eq. simpl.
  split; [done|]. split; [done|]. exists ref1. split; [done|].
  by rewrite lookup_insert_ne.
Qed.

(** X10.  The accessors [sandbox] and [sandbox_id] raise [RuntimeError] on
    a tool as [__init__] leaves it; once [_ensure_sandbox] has returned on a
    tool that held no sandbox, [sandbox] returns the handle and [sandbox_id]
    the id, a string. *)
Theorem accessors_after_ensure_sandbox
    (self self1 : SandboxToolsBase) (w w1 : @World R) (h : handle) :
  _sandbox self = None ->
  _ensure_sandbox D cfg uuid4 self w = (inl h, (self1, w1)) ->
  (forall pid tm,
     (exists msg, ToolAccess.sandbox (init cfg pid tm) = inr (RuntimeError msg))
     /\ (exists msg, ToolAccess.sandbox_id (init cfg pid tm) = inr (RuntimeError msg)))
  /\ ToolAccess.sandbox self1 = inl h
  /\ exists sid, ToolAccess.sandbox_id self1 = inl (VStr sid).
Proof.
  intros Hs H. split.
  { intros pid tm. split; by eexists. }
  assert (exists self0 w0 w2, fetch D cfg self0 w0 = (inl h, (self1, w2)))
    as (self0 & w0 & w2 & Hf2).
  { unfold _ensure_sandbox in H. rewrite Hs in H. destruct (_ || _).
    - unfold ensure_local in H.
      destruct (if db_client self w then _ else _) as [[self0 w0]|e]; [|done].
      destruct (fetch D cfg self0 w0) as [[h'|e] [self2 w2]] eqn:Hf; [|done].
      destruct (FS.mkdir (fs w2) _) as [[u|e] f]; [|done].
      inversion H; subst. by exists self0, w0, w2.
    - unfold ensure_daytona in H. destruct (negb (db_client self w)); [done|].
      destruct (DB.select (db w) (project_id self)) as [|project_data ?]; [done|].
      destruct (negb (value_truthy _)).
      + destruct (create_sandbox D cfg _ _ _) as [[sandbox_obj|e] w1']; [|done].
        destruct (preview_fields D sandbox_obj w1') as [[[vnc_url website_url] token] w2].
        destruct (DB.update _ _ _) as [[|? ?] db']; [done|].
        eexists _, _, _. exact H.
      + eexists _, _, _. exact H. }
  apply fetch_inv in Hf2 as (sid & Hsid & -> & _).
  split; [done|]. exists sid. unfold ToolAccess.sandbox_id. simpl. by rewrite Hsid.
Qed.

End StoreFrame.

Lemma ensure_sandbox_keeps_recorded_id_witness :
  exists row',
    DB.projects (Lifecycle.db (Lifecycle._ensure_sandbox client_down cfg_local
                                 (fun _ => []) tool_example world_example).2.2)
      !! py "p1" = Some row'
    /\ dict_get (Lifecycle.sandbox_info_of row') "id" = VStr (py "sb-1").
Proof.
  set (x := Lifecycle._ensure_sandbox client_down cfg_local (fun _ => [])
              tool_example world_example).
  destruct (ensure_sandbox_keeps_recorded_id client_down cfg_local (fun _ => [])
              tool_example x.2.1 world_example x.2.2 x.1) as (_ & _ & Hid).
  { vm_compute. reflexivity. }
  destruct (Hid (DB.mkRow (Some record_of_remote_provider))) as (row' & Hrow & Heq).
  { vm_compute. reflexivity. }
  { vm_compute. reflexivity. }
  exists row'. split; [exact Hrow | exact Heq].
Defined.

Lemma ensure_sandbox_project_missing_witness :
  Lifecycle._ensure_sandbox client_down cfg_local (fun _ => []) tool_unknown world_example
  = (inr (ValueError "Project not found in DB"), (tool_unknown, world_example)).
Proof.
  apply ensure_sandbox_project_missing; vm_compute; reflexivity.
Defined.

Lemma ensure_sandbox_local_postconditions_witness :
  exists ref sid,
    (Lifecycle._ensure_sandbox client_down cfg_local (fun _ => [])
       tool_without_store world_example).1 = inl (Lifecycle.Local ref)
    /\ Lifecycle.heap world_example !! ref = None
    /\ sid = py "demo-proj".
Proof.
  set (x := Lifecycle._ensure_sandbox client_down cfg_local (fun _ => [])
              tool_without_store world_example).
  set (h := match x.1 with inl h => h | inr _ => Lifecycle.Local 0 end).
  destruct (ensure_sandbox_local_postconditions client_down cfg_local (fun _ => [])
              tool_without_store x.2.1 world_example x.2.2 h)
    as (ref & sid & Hh & Hfresh & _ & _ & Hsid & _).
  - vm_compute. reflexivity.
  - vm_compute. reflexivity.
  - vm_compute. reflexivity.
  - exists ref, sid. split; [rewrite <- Hh; vm_compute; reflexivity|].
    split; [exact Hfresh|]. apply Hsid. vm_compute. reflexivity.
Defined.

Lemma ensure_sandbox_records_created_sandbox_witness :
  exists sid info,
    DB.projects (Lifecycle.db (Lifecycle._ensure_sandbox client_up cfg_daytona
                                 (fun _ => py "pw") tool_daytona (world_daytona true)).2.2)
      !! py "p2" = Some (DB.mkRow (Some info))
    /\ dict_get info "id" = VStr sid
    /\ dict_get info "pass" = VStr (py "pw").
Proof.
  set (x := Lifecycle._ensure_sandbox client_up cfg_daytona (fun _ => py "pw")
              tool_daytona (world_daytona true)).
  set (h := match x.1 with inl h => h | inr _ => Lifecycle.Local 0 end).
  destruct (ensure_sandbox_records_created_sandbox client_up cfg_daytona
              (fun _ => py "pw") tool_daytona x.2.1 (world_daytona true) x.2.2 h
              (DB.mkRow None))
    as (sid & info & Hrow & Hid & Hpass & _).
  - vm_compute. reflexivity.
  - vm_compute. reflexivity.
  - vm_compute. reflexivity.
  - vm_compute. reflexivity.
  - vm_compute. reflexivity.
  - exists sid, info. split; [exact Hrow|]. split; [exact Hid | exact Hpass].
Defined.

Lemma ensure_sandbox_update_refused_witness :
  (exists e, (Lifecycle._ensure_sandbox client_up cfg_daytona (fun _ => py "pw")
                tool_daytona (world_daytona false)).1 = inr e)
  /\ Lifecycle.db (Lifecycle._ensure_sandbox client_up cfg_daytona (fun _ => py "pw")
                     tool_daytona (world_daytona false)).2.2
     = db_unrecorded false.
Proof.
  set (x := Lifecycle._ensure_sandbox client_up cfg_daytona (fun _ => py "pw")
              tool_daytona (world_daytona false)).
  destruct (ensure_sandbox_update_refused client_up cfg_daytona (fun _ => py "pw")
              tool_daytona x.2.1 (world_daytona false) x.2.2 x.1 (DB.mkRow None))
    as (He & _ & Hdb).
  - vm_compute. reflexivity.
  - vm_compute. reflexivity.
  - vm_compute. reflexivity.
  - vm_compute. reflexivity.
  - vm_compute. reflexivity.
  - vm_compute. reflexivity.
  - split; [exact He | exact Hdb].
Defined.

Lemma local_get_or_start_is_not_shared_witness :
  exists h1 w1 h2 w2,
    Lifecycle.get_or_start_sandbox client_down cfg_local (py "demo") world_example
    = (inl h1, w1)
    /\ Lifecycle.get_or_start_sandbox client_down cfg_local (py "demo") w1 = (inl h2, w2)
    /\ h1 <> h2.
Proof.
  set (x := Lifecycle.get_or_start_sandbox client_down cfg_local (py "demo") world_example).
  set (y := Lifecycle.get_or_start_sandbox client_down cfg_local (py "demo") x.2).
  set (h1 := match x.1 with inl h => h | inr _ => Lifecycle.Local 0 end).
  set (h2 := match y.1 with inl h => h | inr _ => Lifecycle.Local 0 end).
  exists h1, x.2, h2, y.2.
  assert (Lifecycle.get_or_start_sandbox client_down cfg_local (py "demo") world_example
          = (inl h1, x.2)) as H1 by (vm_compute; reflexivity).
  assert (Lifecycle.get_or_start_sandbox client_down cfg_local (py "demo") x.2
          = (inl h2, y.2)) as H2 by (vm_compute; reflexivity).
  split; [exact H1|]. split; [exact H2|].
  destruct (local_get_or_start_is_not_shared client_down cfg_local (py "demo")
              world_example x.2 y.2 h1 h2) as (Hne & _).
  - vm_compute. reflexivity.
  - exact H1.
  - exact H2.
  - exact Hne.
Defined.

Lemma accessors_after_ensure_sandbox_witness :
  exists h sid,
    ToolAccess.sandbox (Lifecycle._ensure_sandbox client_down cfg_local (fun _ => [])
                          tool_without_store world_example).2.1 = inl h
    /\ ToolAccess.sandbox_id (Lifecycle._ensure_sandbox client_down cfg_local (fun _ => [])
                                tool_without_store world_example).2.1 = inl (VStr sid).
Proof.
  set (x := Lifecycle._ensure_sandbox client_down cfg_local (fun _ => [])
              tool_without_store world_example).
  set (h := match x.1 with inl h => h | inr _ => Lifecycle.Local 0 end).
  destruct (accessors_after_ensure_sandbox client_down cfg_local (fun _ => [])
              tool_without_store x.2.1 world_example x.2.2 h)
    as (_ & Hs & sid & Hid).
  - vm_compute. reflexivity.
  - vm_compute. reflexivity.
  - exists h, sid. split; [exact Hs | exact Hid].
Defined.

(** ** Paths: what the normalisations keep *)

Section PathsKept.
Import PyStr Spec Api.

Lemma deduplicate_unfold (x y : pstr) (r : list pstr) :
  deduplicate (x :: y :: r)
  = x :: if eqb y x then deduplicate r else deduplicate (y :: r).
Proof. done. Qed.

Lemma deduplicate_sublist (l : list pstr) : deduplicate l `sublist_of` l.
Proof.
  induction l as [| x | x y r IHr IHyr] using list_pair_ind; [done|done|].
  rewrite deduplicate_unfold. apply sublist_skip.
  destruct (eqb y x); [by apply sublist_cons | done].
Qed.

Lemma deduplicate_nil (l : list pstr) : deduplicate l = [] -> l = [].
Proof. by destruct l. Qed.

Lemma deduplicate_last (l : list pstr) : last (deduplicate l) = last l.
Proof.
  induction l as [| x | x y r IHr IHyr] using list_pair_ind; [done|done|].
  rewrite deduplicate_unfold. destruct (eqb y x) eqn:E.
  - apply eqb_true in E. subst y.
    rewrite !last_cons, IHr. by destruct (last r).
  - by rewrite last_cons, IHyr, <- last_cons.
Qed.

Lemma deduplicate_length (l : list pstr) :
  (length l <= 2 * length (deduplicate l))%nat.
Proof.
  induction l as [| x | x y r IHr IHyr] using list_pair_ind; [done|simpl; lia|].
  rewrite deduplicate_unfold. destruct (eqb y x); simpl in *; lia.
Qed.

Lemma deduplicate_short (l : list pstr) :
  (length l <? 2)%nat = true -> deduplicate l = l.
Proof. by destruct l as [|x [|y r]]. Qed.

Lemma fix_parts (p : pstr) (pid : option pstr) :
  path_parts (_fix_path_duplications p pid) = deduplicate (path_parts p).
Proof.
  destruct (length (path_parts p) <? 2)%nat eqn:E.
  - by rewrite fix_small, deduplicate_short.
  - rewrite fix_large by done. apply path_parts_joined.
    apply deduplicate_Forall, Forall_segment_path_parts.
Qed.

(** X11.  The segments of the path [_fix_path_duplications] returns are
    segments of the path it was given, in their order: nothing is added or
    reordered.  The first and the last segment are kept, and at most every
    second segment is dropped. *)
Theorem fix_path_duplications_only_drops (p : pstr) (project_id : option pstr) :
  let before := path_parts p in
  let after := path_parts (_fix_path_duplications p project_id) in
  after `sublist_of` before
  /\ head after = head before
  /\ last after = last before
  /\ (length before <= 2 * length after)%nat.
Proof.
  simpl. rewrite fix_parts. split; [apply deduplicate_sublist|].
  split; [by destruct (path_parts p)|].
  split; [apply deduplicate_last | apply deduplicate_length].
Qed.

(** X12.  A path of two segments or more comes back from
    [_fix_path_duplications] in one form, whatever its slashes were: a
    single slash and the kept segments joined by single slashes, so with a
    leading slash also when the path given had none, without backslash,
    without slash at the end and without two slashes in a row. *)
Theorem fix_path_duplications_canonical (p : pstr) (project_id : option pstr) :
  (2 <= length (path_parts p))%nat ->
  let r := _fix_path_duplications p project_id in
  r = slash :: join [slash] (path_parts r)
  /\ smooth r = true
  /\ head (drop 1 r) <> Some slash.
Proof.
  intros Hlen. simpl. rewrite fix_parts.
  assert ((length (path_parts p) <? 2)%nat = false) as E by (apply Nat.ltb_ge; lia).
  rewrite fix_large by done. split; [done|].
  assert (Forall (fun x => segment x = true) (deduplicate (path_parts p))) as Hseg.
  { apply deduplicate_Forall, Forall_segment_path_parts. }
  destruct (smooth_joined _ Hseg) as [Hs|Hnil].
  2: { apply deduplicate_nil in Hnil. rewrite Hnil in Hlen. simpl in Hlen. lia. }
  split; [done|]. simpl. rewrite drop_0.
  change (smooth (slash :: ?x)) with
    (negb (slash =? backslash)
     && (match x with [] => false | d :: _ => negb (d =? slash) end)
     && smooth x) in Hs.
  apply andb_true_iff in Hs as [Hs _]. apply andb_true_iff in Hs as [_ Hs].
  destruct (join [slash] (deduplicate (path_parts p))) as [|d t]; [done|].
  simpl. intros [= ->]. done.
Qed.

Lemma lstrip_suffix (c : N) (s : pstr) : lstrip c s `suffix_of` s.
Proof. destruct (lstrip_drop c s) as [k ->]. apply suffix_drop. Qed.

Lemma lstrip_idem (c : N) (s : pstr) : lstrip c (lstrip c s) = lstrip c s.
Proof.
  induction s as [|a s IH]; [done|]. simpl. destruct (a =? c) eqn:E; [done|].
  simpl. by rewrite E.
Qed.

Lemma lstrip_app (c : N) (s t : pstr) :
  lstrip c s <> [] -> lstrip c (s ++ t) = lstrip c s ++ t.
Proof.
  induction s as [|a s IH]; [done|]. simpl. destruct (a =? c); [exact IH|done].
Qed.

Lemma lstrip_app_nil (c : N) (s t : pstr) :
  lstrip c s = [] -> lstrip c (s ++ t) = lstrip c t.
Proof.
  induction s as [|a s IH]; [done|]. simpl. destruct (a =? c); [exact IH|done].
Qed.

Lemma startswith_app (p s : pstr) : startswith p (p ++ s) = true.
Proof. induction p as [|a p IH]; [done|]. simpl. by rewrite N.eqb_refl. Qed.

Lemma startswith_prefix (p s : pstr) : startswith p s = true <-> p `prefix_of` s.
Proof.
  revert s. induction p as [|a p IH]; intros s.
  - split; [intros _; apply prefix_nil | done].
  - destruct s as [|b s]; simpl.
    + split; [done|]. intros [k Hk]. done.
    + rewrite andb_true_iff, IH, N.eqb_eq. split.
      * intros [-> H]. by apply prefix_cons.
      * intros [k Hk]. injection Hk as -> ->. split; [done|]. by eexists.
Qed.

(** X13.  [WorkspaceConfig.normalize_path] returns an end of the path it
    was given: it only takes characters away from the front; and what it
    takes away is made of slashes, the workspace root and the project
    prefix: a path that begins with none of them is returned as it is. *)
Theorem workspace_normalize_is_suffix (cfg : WorkspaceConfig.t) (path project_id : pstr) :
  WorkspaceConfig.normalize_path cfg path project_id `suffix_of` path
  /\ (lstrip slash path = path ->
      startswith (lstrip slash (WorkspaceConfig.WORKSPACE_ROOT cfg)) path = false ->
      startswith (project_id ++ [slash]) path = false ->
      WorkspaceConfig.normalize_path cfg path project_id = path).
Proof.
  split.
  - destruct (workspace_normalize_drop cfg path project_id) as [k ->].
    etrans; [apply suffix_drop | apply lstrip_suffix].
  - intros Hl Hw Hp. unfold WorkspaceConfig.normalize_path. by rewrite Hl, Hw, Hp.
Qed.

Lemma normalize_after_root (cfg : WorkspaceConfig.t) (rest pid : pstr) :
  WorkspaceConfig.normalize_path cfg
    (WorkspaceConfig.WORKSPACE_ROOT cfg ++ slash :: rest) pid
  = let x := lstrip slash rest in
    if startswith (pid ++ [slash]) x then drop (length (pid ++ [slash])) x else x.
Proof.
  unfold WorkspaceConfig.normalize_path.
  set (root := WorkspaceConfig.WORKSPACE_ROOT cfg).
  destruct (lstrip slash root) as [|a wp] eqn:Hwp.
  - rewrite lstrip_app_nil by done.
    change (lstrip slash (slash :: rest)) with (lstrip slash rest).
    simpl startswith. cbv iota. simpl length. rewrite drop_0. by rewrite lstrip_idem.
  - rewrite lstrip_app by (rewrite Hwp; done). rewrite Hwp.
    rewrite startswith_app, drop_app_length.
    by change (lstrip slash (slash :: rest)) with (lstrip slash rest).
Qed.

(** X14.  Under the provider [daytona], for a project id that is not empty
    and does not begin with a slash, normalising the absolute path
    [resolve_absolute_path] makes of a path gives the normalised path back,
    when that is not empty; so [resolve_absolute_path] applied to its own
    result changes nothing.  The tool's [clean_path] and [resolve_path]
    are these two functions. *)
Theorem resolve_then_normalize_daytona
    (cfg : WorkspaceConfig.t) (path project_id : pstr) :
  WorkspaceConfig.PROVIDER cfg = py "daytona" ->
  truthy project_id = true ->
  lstrip slash project_id = project_id ->
  truthy (WorkspaceConfig.normalize_path cfg path project_id) = true ->
  let abs := WorkspaceConfig.resolve_absolute_path cfg path project_id in
  WorkspaceConfig.normalize_path cfg abs project_id
  = WorkspaceConfig.normalize_path cfg path project_id
  /\ WorkspaceConfig.resolve_absolute_path cfg abs project_id = abs
  /\ forall tool, Lifecycle.project_id tool = project_id ->
       ToolAccess.clean_path cfg tool (ToolAccess.resolve_path cfg tool path)
       = ToolAccess.clean_path cfg tool path.
Proof.
  intros Hprov Hpid Hlpid Hn. simpl.
  set (n := WorkspaceConfig.normalize_path cfg path project_id) in *.
  assert (WorkspaceConfig.resolve_absolute_path cfg path project_id
          = WorkspaceConfig.WORKSPACE_ROOT cfg ++ slash :: project_id ++ slash :: n)
    as Habs.
  { unfold WorkspaceConfig.resolve_absolute_path,
      WorkspaceConfig.get_project_directory_path. fold n.
    rewrite Hn, Hprov, eqb_refl. by rewrite <- !app_assoc. }
  assert (WorkspaceConfig.normalize_path cfg
            (WorkspaceConfig.resolve_absolute_path cfg path project_id) project_id = n)
    as Hround.
  { rewrite Habs, normalize_after_root. simpl.
    rewrite lstrip_app by (rewrite Hlpid; by destruct project_id).
    rewrite Hlpid.
    replace (project_id ++ slash :: n) with ((project_id ++ [slash]) ++ n)
      by by rewrite <- app_assoc.
    by rewrite startswith_app, drop_app_length. }
  split; [exact Hround|]. split.
  - unfold WorkspaceConfig.resolve_absolute_path at 1. rewrite Hround.
    by fold (WorkspaceConfig.resolve_absolute_path cfg path project_id).
  - intros tool <-. unfold ToolAccess.clean_path, ToolAccess.resolve_path.
    exact Hround.
Qed.

(** X15.  Under any other provider, normalising the absolute path
    [resolve_absolute_path] makes of a path gives the normalised path back
    when that begins neither with a slash nor with the project prefix, and
    [resolve_absolute_path] applied to its own result changes nothing. *)
Theorem resolve_then_normalize_local
    (cfg : WorkspaceConfig.t) (path project_id : pstr) :
  WorkspaceConfig.PROVIDER cfg <> py "daytona" ->
  let n := WorkspaceConfig.normalize_path cfg path project_id in
  let abs := WorkspaceConfig.resolve_absolute_path cfg path project_id in
  lstrip slash n = n ->
  startswith (project_id ++ [slash]) n = false ->
  WorkspaceConfig.normalize_path cfg abs project_id = n
  /\ WorkspaceConfig.resolve_absolute_path cfg abs project_id = abs.
Proof.
  intros Hprov n abs Hl Hp.
  assert (eqb (WorkspaceConfig.PROVIDER cfg) (py "daytona") = false) as Hprov'
    by by apply eqb_false.
  assert (WorkspaceConfig.normalize_path cfg abs project_id = n) as Hround.
  { unfold abs, WorkspaceConfig.resolve_absolute_path,
      WorkspaceConfig.get_project_directory_path. fold n. rewrite Hprov'.
    destruct (truthy n) eqn:Hn.
    - simpl app. rewrite normalize_after_root. simpl. by rewrite Hl, Hp.
    - destruct n; [|done].
      unfold WorkspaceConfig.normalize_path.
      set (wp := lstrip slash (WorkspaceConfig.WORKSPACE_ROOT cfg)).
      assert (startswith wp wp = true) as ->.
      { rewrite <- (app_nil_r wp) at 2. apply startswith_app. }
      rewrite drop_all. simpl. by destruct project_id. }
  split; [exact Hround|].
  unfold WorkspaceConfig.resolve_absolute_path at 1. by rewrite Hround.
Qed.

End PathsKept.

Lemma fix_path_duplications_canonical_witness :
  (2 <= length (Api.path_parts (py "data\data//file.txt")))%nat
  /\ Spec.smooth (Api._fix_path_duplications (py "data\data//file.txt") None) = true.
Proof.
  assert (2 <= length (Api.path_parts (py "data\data//file.txt")))%nat as H.
  { vm_compute. lia. }
  split; [exact H|].
  destruct (fix_path_duplications_canonical (py "data\data//file.txt") None H)
    as (_ & Hs & _).
  exact Hs.
Defined.

Lemma workspace_normalize_is_suffix_witness :
  WorkspaceConfig.normalize_path cfg_local (py "src/a.py") (py "p1") = py "src/a.py".
Proof.
  destruct (workspace_normalize_is_suffix cfg_local (py "src/a.py") (py "p1"))
    as [_ H].
  apply H; vm_compute; reflexivity.
Defined.

Lemma resolve_then_normalize_daytona_witness :
  WorkspaceConfig.resolve_absolute_path cfg_daytona (py "/workspace/p1/src/a.py") (py "p1")
  = py "/workspace/p1/src/a.py"
  /\ WorkspaceConfig.normalize_path cfg_daytona
       (WorkspaceConfig.resolve_absolute_path cfg_daytona (py "/workspace/p1/src/a.py")
          (py "p1")) (py "p1")
     = WorkspaceConfig.normalize_path cfg_daytona (py "/workspace/p1/src/a.py") (py "p1").
Proof.
  split; [vm_compute; reflexivity|].
  destruct (resolve_then_normalize_daytona cfg_daytona (py "/workspace/p1/src/a.py")
              (py "p1")) as (H & _ & _).
  - vm_compute. reflexivity.
  - vm_compute. reflexivity.
  - vm_compute. reflexivity.
  - vm_compute. reflexivity.
  - exact H.
Defined.

Lemma resolve_then_normalize_local_witness :
  WorkspaceConfig.resolve_absolute_path cfg_local
    (WorkspaceConfig.resolve_absolute_path cfg_local (py "src/a.py") (py "p1")) (py "p1")
  = WorkspaceConfig.resolve_absolute_path cfg_local (py "src/a.py") (py "p1").
Proof.
  destruct (resolve_then_normalize_local cfg_local (py "src/a.py") (py "p1"))
    as (_ & H).
  - vm_compute. intros H. discriminate H.
  - vm_compute. reflexivity.
  - vm_compute. reflexivity.
  - exact H.
Defined.

(** ** The order of paths *)

Section PathOrder.
Import PyStr Pathlib Removal.

Section Lex.
Context {A : Type} (cmp : A -> A -> comparison).
Hypothesis cmp_refl : forall a, cmp a a = Eq.
Hypothesis cmp_eq : forall a b, cmp a b = Eq -> a = b.
Hypothesis cmp_antisym : forall a b, cmp b a = CompOpp (cmp a b).
Hypothesis cmp_trans : forall a b c, cmp a b = Lt -> cmp b c = Lt -> cmp a c = Lt.


Lemma lex_compare_eq (l1 l2 : list A) : lex_compare cmp l1 l2 = Eq -> l1 = l2.
Proof using cmp_eq.
  revert l2. induction l1 as [|a l1 IH]; intros [|b l2]; simpl; try done.
  destruct (cmp a b) eqn:E; try done. intros H.
  apply cmp_eq in E. subst. f_equal. by apply IH.
Qed.

Lemma lex_compare_antisym (l1 l2 : list A) :
  lex_compare cmp l2 l1 = CompOpp (lex_compare cmp l1 l2).
Proof using cmp_antisym.
  revert l2. induction l1 as [|a l1 IH]; intros [|b l2]; simpl; try done.
  rewrite (cmp_antisym a b). destruct (cmp a b); simpl; [apply IH|done|done].
Qed.

Lemma lex_compare_trans (l1 l2 l3 : list A) :
  lex_compare cmp l1 l2 = Lt -> lex_compare cmp l2 l3 = Lt ->
  lex_compare cmp l1 l3 = Lt.
Proof using cmp_eq cmp_trans.
  revert l2 l3. induction l1 as [|a l1 IH]; intros [|b l2] [|c l3]; simpl; try done.
  destruct (cmp a b) eqn:Eab; try done.
  - apply cmp_eq in Eab. subst b. destruct (cmp a c); try done. apply IH.
  - intros _. destruct (cmp b c) eqn:Ebc; try done.
    + apply cmp_eq in Ebc. subst c. by rewrite Eab.
    + by rewrite (cmp_trans _ _ _ Eab Ebc).
Qed.


(** The order is total and transitive. *)
Lemma lex_ge_total (l1 l2 : list A) :
  lex_compare cmp l1 l2 <> Lt \/ lex_compare cmp l2 l1 <> Lt.
Proof using cmp_antisym.
  rewrite (lex_compare_antisym l1 l2). destruct (lex_compare cmp l1 l2); simpl; auto.
Qed.

Lemma lex_ge_trans (l1 l2 l3 : list A) :
  lex_compare cmp l1 l2 <> Lt -> lex_compare cmp l2 l3 <> Lt ->
  lex_compare cmp l1 l3 <> Lt.
Proof using cmp_eq cmp_antisym cmp_trans.
  intros H12 H23 H13.
  destruct (lex_compare cmp l1 l2) eqn:E12; [|done|].
  - apply lex_compare_eq in E12. by subst.
  - destruct (lex_compare cmp l2 l3) eqn:E23; [|done|].
    + apply lex_compare_eq in E23. subst. congruence.
    + assert (lex_compare cmp l3 l2 = Lt) as H32.
      { by rewrite (lex_compare_antisym l2 l3), E23. }
      assert (lex_compare cmp l2 l1 = Lt) as H21.
      { by rewrite (lex_compare_antisym l1 l2), E12. }
      pose proof (lex_compare_trans _ _ _ H32 H21) as H31.
      rewrite (lex_compare_antisym l1 l3), H13 in H31. done.
Qed.

End Lex.

Lemma N_compare_trans (a b c : N) :
  (a ?= b)%N = Lt -> (b ?= c)%N = Lt -> (a ?= c)%N = Lt.
Proof. rewrite !N.compare_lt_iff. lia. Qed.


Lemma str_compare_eq (a b : pstr) : str_compare a b = Eq -> a = b.
Proof. apply lex_compare_eq. intros x y. apply N.compare_eq. Qed.

Lemma str_compare_antisym (a b : pstr) : str_compare b a = CompOpp (str_compare a b).
Proof. apply lex_compare_antisym. intros x y. apply N.compare_antisym. Qed.

Lemma str_compare_trans (a b c : pstr) :
  str_compare a b = Lt -> str_compare b c = Lt -> str_compare a c = Lt.
Proof.
  apply lex_compare_trans.
  - intros x y. apply N.compare_eq.
  - apply N_compare_trans.
Qed.

#[local] Instance path_ge_total : Total path_ge.
Proof.
  intros p q. unfold path_ge, path_compare.
  apply lex_ge_total, str_compare_antisym.
Qed.

#[local] Instance path_ge_trans : Transitive path_ge.
Proof.
  intros p q r. unfold path_ge, path_compare.
  apply lex_ge_trans.
  - apply str_compare_eq.
  - apply str_compare_antisym.
  - apply str_compare_trans.
Qed.



End PathOrder.

(** ** Removing: the system calls on a tree *)

Section RemovalFacts.
Import PyStr Pathlib FS Frame Removal.





Lemma is_file_is_some (o : option node) : is_file_node o = true -> is_Some o.
Proof. destruct o; [by eexists|done]. Qed.






















Lemma last_app_ne (ps rel : list pstr) : rel <> [] -> last (ps ++ rel) = last rel.
Proof.
  intros Hne. destruct (exists_last Hne) as (rel0 & x & ->).
  by rewrite app_assoc, !last_snoc.
Qed.












End RemovalFacts.




(** ** The engine: what a call leaves behind *)

Section DecodeFacts.
Import PyStr Urllib.

Lemma cont_small (b : N) : 245 <= b -> is_cont b = false.
Proof. intros H. unfold is_cont. apply andb_false_iff. right. apply N.ltb_ge. lia. Qed.

(** A byte from [0xF5] on is in no well-formed sequence. *)
Lemma utf8_scan_invalid (n : nat) (bs : list N) (b : N) :
  (length bs <= n)%nat -> b ∈ bs -> 245 <= b -> None ∈ utf8_scan bs.
Proof.
  revert bs. induction n as [|n IH]; intros bs Hlen Hb Hge.
  { destruct bs; [by apply elem_of_nil in Hb | simpl in Hlen; lia]. }
  destruct bs as [|ch t1]; [by apply elem_of_nil in Hb|]. simpl in Hlen.
  apply elem_of_cons in Hb as [->|Hb].
  { simpl. rewrite !(proj2 (N.ltb_ge _ _)) by lia. left. }
  pose proof (cont_small b Hge) as Hcont.
  assert (forall t, (length t <= n)%nat -> b ∈ t -> None ∈ utf8_scan t) as Hrec.
  { intros t Ht Hin. by apply IH. }
  simpl.
  repeat match goal with
  | |- None ∈ None :: _ => left
  | |- None ∈ Some _ :: utf8_scan _ => right; apply Hrec; [simpl in *; lia|]
  | |- context [if ?c then _ else _] => destruct c eqn:?
  | |- context [match ?t with [] => _ | _ :: _ => _ end] => destruct t eqn:?; subst
  | H : ?y ∈ ?t |- ?y ∈ ?t => exact H
  | H : ?y ∈ ?x :: ?t |- ?y ∈ _ =>
      apply elem_of_cons in H as [?|H]; [exfalso; subst|]
  | H : _ ∈ [] |- _ => by apply elem_of_nil in H
  | H1 : is_cont ?x = false, H2 : is_cont ?x = true |- _ => congruence
  | H1 : is_cont ?x = false, H2 : negb (is_cont ?x) || _ = false |- _ =>
      rewrite H1 in H2; discriminate H2
  | H1 : is_cont ?x = false, H2 : negb (is_cont ?x) = false |- _ =>
      rewrite H1 in H2; discriminate H2
  end.
Qed.

Lemma decode_invalid (bs : list N) (b : N) :
  b ∈ bs -> 245 <= b -> utf8_decode_strict bs = inr UnicodeDecodeError.
Proof.
  intros Hb Hge. unfold utf8_decode_strict.
  assert (mapM id (utf8_scan bs) = None) as ->; [|done].
  apply mapM_None. apply Exists_exists. exists None. split; [|done].
  by apply (utf8_scan_invalid (length bs) bs b).
Qed.

End DecodeFacts.

Section EngineFacts.
Import PyStr Pathlib LocalProcess.

Variable P : OS.Platform.
Variable SHELL_PATH : pstr.
Variable self : LocalProcessSandbox.

(** X18.  When the builder of virtual environments leaves [pyvenv.cfg] in
    the environment it makes for the project, [_ensure_venv] builds the
    environment once: after a call that returned, a further call returns
    the same directory, does not build and changes nothing. *)
Theorem ensure_venv_builds_once (project_id : pstr) (fs fs1 : FS.t) (v : Path) :
  (forall u f1, OS.venv_create P (_venv_path self project_id) fs = (inl u, f1) ->
                FS.exists_ f1 (joinpath (_venv_path self project_id) (py "pyvenv.cfg"))
                = true) ->
  _ensure_venv P self project_id fs = (inl v, fs1) ->
  v = _venv_path self project_id
  /\ _ensure_venv P self project_id fs1 = (inl v, fs1).
Proof.
  intros Hbuilder. unfold _ensure_venv, bind.
  destruct (FS.exists_ fs _) eqn:Hex; simpl.
  - intros H. inversion H; subst. split; [done|]. by rewrite Hex.
  - destruct (OS.venv_create P _ fs) as [[u|e] f1] eqn:Hc; [|done].
    intros H. inversion H; subst. split; [done|].
    by rewrite (Hbuilder _ _ eq_refl).
Qed.

(** X19.  When the output of the child has a byte from [0xF5] on, which
    no UTF-8 text has, and the child exits in time, [exec] raises
    [UnicodeDecodeError] and returns no result, although the child has run:
    what it wrote is in the file system and it is in the process table
    with its exit code. *)
Theorem exec_undecodable_output (cmd : pstr + list pstr) (cwd : option pstr)
    (timeout : Z) (os : OS.t) (sc : OS.script) (b : Byte.byte) :
  OS.spawn_shell P SHELL_PATH (command_line cmd) (working_directory self cwd)
    (OS.fs os) = inl sc ->
  OS.exceeds sc timeout = false ->
  b ∈ OS.out sc ->
  (245 <= Byte.to_N b)%N ->
  exec P SHELL_PATH self cmd cwd timeout os
  = (inr UnicodeDecodeError,
     {| OS.fs := OS.effect sc (OS.fs os);
        OS.processes :=
          OS.processes os
            ++ [OS.mkProcess [SHELL_PATH; py "-c"; command_line cmd]
                  (working_directory self cwd) (OS.Exited (OS.returncode sc))] |}).
Proof.
  intros Hs Hx Hb Hge. unfold exec, communicate. rewrite Hs, Hx.
  unfold OS.decode at 1.
  rewrite (decode_invalid (map Byte.to_N (OS.out sc)) (Byte.to_N b)); [done| |done].
  apply list_elem_of_fmap. by exists b.
Qed.

Lemma communicate_keys (sc : OS.script) (argv : list pstr) (dir : pstr)
    (timeout : Z) (extra : dict) (os os' : OS.t) (d : dict) :
  communicate sc argv dir timeout extra os = (inl d, os') ->
  (exists c o e,
     d = {[ "code"%string := VInt c; "stdout"%string := VStr o;
            "stderr"%string := VStr e ]} ∪ extra)
  /\ exists st, OS.processes os' = OS.processes os ++ [OS.mkProcess argv dir st].
Proof.
  intros H. split.
  - unfold communicate in H. destruct (OS.exceeds sc timeout).
    { inversion H. by do 3 eexists. }
    destruct (OS.decode (OS.out sc)); [|done].
    destruct (OS.decode (OS.err sc)); [|done].
    inversion H. by do 3 eexists.
  - destruct (communicate_one_process sc argv dir timeout extra os) as [st Hst].
    rewrite H in Hst. by exists st.
Qed.

Lemma three_keys (c : Z) (o e : pstr) (extra : dict) :
  let d := ({[ "code"%string := VInt c; "stdout"%string := VStr o;
               "stderr"%string := VStr e ]} : dict) ∪ extra in
  d !! "code"%string = Some (VInt c)
  /\ d !! "stdout"%string = Some (VStr o)
  /\ d !! "stderr"%string = Some (VStr e).
Proof.
  simpl. repeat split; apply lookup_union_Some_l.
  - by rewrite lookup_insert_eq.
  - by rewrite lookup_insert_ne, lookup_insert_eq.
  - by rewrite !lookup_insert_ne, lookup_singleton_eq.
Qed.

Lemma run_script_keys (code py_bin : pstr) (wd : Path) (timeout : Z)
    (os os' : OS.t) (d : dict) :
  run_script P code py_bin wd timeout os = (inl d, os') ->
  exists c o e script st,
    d !! "code"%string = Some (VInt c)
    /\ d !! "stdout"%string = Some (VStr o)
    /\ d !! "stderr"%string = Some (VStr e)
    /\ d !! "script"%string = Some (VStr script)
    /\ d !! "workdir"%string = Some (VStr (str wd))
    /\ OS.processes os'
       = OS.processes os ++ [OS.mkProcess [py_bin; script] (str wd) st].
Proof.
  unfold run_script, bind, on_fs.
  destruct (FS.write_bytes (OS.fs os) _ _) as [[n|e] fs1]; [|done]. simpl.
  destruct (OS.spawn_exec P _ _ _) as [sc|e]; [|done].
  intros H. apply communicate_keys in H as [(c & o & e & ->) [st Hst]].
  destruct (three_keys c o e
              {[ "script"%string := VStr (OS.temp_name P wd (py ".py") (OS.fs os));
                 "workdir"%string := VStr (str wd) ]}) as (Hc & Ho & He).
  exists c, o, e, (OS.temp_name P wd (py ".py") (OS.fs os)), st.
  split; [exact Hc|]. split; [exact Ho|]. split; [exact He|].
  split; [|split].
  - rewrite lookup_union_r; [by rewrite lookup_insert_eq|].
    by rewrite !lookup_insert_ne, lookup_singleton_ne.
  - rewrite lookup_union_r; [by rewrite lookup_insert_ne, lookup_singleton_eq|].
    by rewrite !lookup_insert_ne, lookup_singleton_ne.
  - exact Hst.
Qed.

(** X20.  Whatever [run_python] returns has the keys [code], [stdout]
    and [stderr], with a number and two strings; it has the key [script]
    only when the script was run: then it has [workdir] too and the last
    child that was started is the interpreter on that script in that
    directory. *)
Theorem run_python_result_keys
    (code project_id : pstr) (requirements : option (list pstr))
    (workdir : option pstr) (timeout : Z) (python_bin : option pstr)
    (os os' : OS.t) (d : dict) :
  run_python P SHELL_PATH self code project_id requirements workdir timeout
    python_bin os = (inl d, os') ->
  (exists c o e,
     d !! "code"%string = Some (VInt c)
     /\ d !! "stdout"%string = Some (VStr o)
     /\ d !! "stderr"%string = Some (VStr e))
  /\ (is_Some (d !! "script"%string) ->
      exists script wd py_bin st before,
        d !! "script"%string = Some (VStr script)
        /\ d !! "workdir"%string = Some (VStr wd)
        /\ OS.processes os' = before ++ [OS.mkProcess [py_bin; script] wd st]).
Proof.
  unfold run_python, bind.
  destruct (prepare P self project_id workdir python_bin os)
    as [[[py_bin wd]|e] os2]; [|done].
  assert (forall os0 os1 d0,
            run_script P code py_bin wd timeout os0 = (inl d0, os1) ->
            (exists c o e,
               d0 !! "code"%string = Some (VInt c)
               /\ d0 !! "stdout"%string = Some (VStr o)
               /\ d0 !! "stderr"%string = Some (VStr e))
            /\ (is_Some (d0 !! "script"%string) ->
                exists script wd0 py_bin0 st before,
                  d0 !! "script"%string = Some (VStr script)
                  /\ d0 !! "workdir"%string = Some (VStr wd0)
                  /\ OS.processes os1
                     = before ++ [OS.mkProcess [py_bin0; script] wd0 st])) as Hscript.
  { intros os0 os1 d0 H.
    apply run_script_keys in H as (c & o & e & script & st & Hc & Ho & He & Hs & Hw & Hp).
    split; [by exists c, o, e|]. intros _.
    by exists script, (str wd), py_bin, st, (OS.processes os0). }
  destruct requirements as [[|req reqs]|]; [by apply Hscript| |by apply Hscript].
  destruct (exec P SHELL_PATH self _ _ timeout os2) as [[inst|e] os3] eqn:He; [|done].
  apply exec_returns in He as [(c & o & e & ->) _].
  unfold item. rewrite lookup_insert_eq.
  rewrite lookup_insert_ne, lookup_insert_eq by done.
  rewrite !lookup_insert_ne, lookup_singleton_eq by done.
  destruct (nonzero (VInt c)); [|by apply Hscript].
  intros H. inversion H; subst. split.
  - exists c, o, e. rewrite lookup_insert_eq.
    rewrite lookup_insert_ne, lookup_insert_eq by done.
    by rewrite !lookup_insert_ne, lookup_singleton_eq.
  - intros [v Hv]. by rewrite !lookup_insert_ne, lookup_singleton_ne in Hv.
Qed.


End EngineFacts.

Lemma ensure_venv_builds_once_witness :
  exists v fs1,
    LocalProcess._ensure_venv platform_example sandbox_example (py "demo")
      (OS.fs os_example) = (inl v, fs1)
    /\ LocalProcess._ensure_venv platform_example sandbox_example (py "demo") fs1
       = (inl v, fs1).
Proof.
  set (x := LocalProcess._ensure_venv platform_example sandbox_example (py "demo")
              (OS.fs os_example)).
  assert (x = (inl (LocalProcess._venv_path sandbox_example (py "demo")), x.2)) as Hx
    by (vm_compute; reflexivity).
  exists (LocalProcess._venv_path sandbox_example (py "demo")), x.2.
  split; [exact Hx|].
  apply (ensure_venv_builds_once platform_example sandbox_example (py "demo")
           (OS.fs os_example) x.2 (LocalProcess._venv_path sandbox_example (py "demo")));
    [|exact Hx].
  intros u f1 H. vm_compute in H. injection H as _ <-. vm_compute. reflexivity.
Defined.

Lemma exec_undecodable_output_witness :
  (LocalProcess.exec platform_binary (py "/bin/sh") sandbox_example
     (inl (py "cat image.png")) None 900 os_example).1
  = inr UnicodeDecodeError.
Proof.
  rewrite (exec_undecodable_output platform_binary (py "/bin/sh") sandbox_example
             (inl (py "cat image.png")) None 900 os_example script_binary_output xff).
  - reflexivity.
  - vm_compute. reflexivity.
  - vm_compute. reflexivity.
  - right. left.
  - vm_compute. discriminate.
Defined.

Lemma run_python_result_keys_witness :
  exists d os' script,
    LocalProcess.run_python platform_example (py "/bin/sh") sandbox_example
      (py "print(1+1)") (py "demo") None None 900 None os_example = (inl d, os')
    /\ d !! "script"%string = Some (VStr script)
    /\ d !! "code"%string = Some (VInt 0).
Proof.
  set (x := LocalProcess.run_python platform_example (py "/bin/sh") sandbox_example
              (py "print(1+1)") (py "demo") None None 900 None os_example).
  set (d := match x.1 with inl d => d | inr _ => ∅ end).
  assert (x = (inl d, x.2)) as Hx by (vm_compute; reflexivity).
  destruct (run_python_result_keys platform_example (py "/bin/sh") sandbox_example
              (py "print(1+1)") (py "demo") None None 900 None os_example x.2 d Hx)
    as [_ Hscript].
  destruct Hscript as (script & wd & py_bin & st & before & Hs & _).
  { vm_compute. eexists. reflexivity. }
  exists d, x.2, script. split; [exact Hx|]. split; [exact Hs|].
  vm_compute. reflexivity.
Defined.


(** ** Paths that stay inside the project directory *)

Section SafePaths.
Import PyStr Pathlib WorkspaceConfig WorkspaceSafety.




Lemma lexical_slash (st : list pstr) (s : pstr) :
  lexical st (split slash (slash :: s)) = lexical st (split slash s).
Proof. done. Qed.




















End SafePaths.


(** ** The file adapter: one call after another *)

Section AdapterSequences.
Import PyStr Pathlib FS Frame Removal LocalProcess.

Lemma write_bytes_places (fs fs' : FS.t) (p : Path) (data : bytes) (n : Z) :
  write_bytes fs p data = (inl n, fs') ->
  exists c, locate fs' p = inl c
            /\ fs' = with_tree fs (<[c := File data (clock fs)]> (tree fs)).
Proof.
  unfold write_bytes. destruct (locate fs p) as [c|e] eqn:Hl; [|done].
  destruct (is_dir_node (tree fs !! c)) eqn:Hd.
  { destruct (tree fs !! c) as [[]|]; done. }
  intros H. exists c.
  assert (fs' = with_tree fs (<[c:=File data (clock fs)]> (tree fs))) as ->.
  { destruct (tree fs !! c) as [[]|]; by inversion H. }
  split; [|done]. unfold locate in *.
  change (start_of (with_tree fs _) (root p)) with (start_of fs (root p)).
  by apply walk_insert_file.
Qed.

(** Where [upload_file] has put the data when it returns. *)
Lemma upload_file_places (self : _LocalFS) (data : bytes) (path : pstr)
    (fs fs' : FS.t) :
  upload_file self data path fs = (inl tt, fs') ->
  exists c m, locate fs' (_abs self path) = inl c
              /\ tree fs' !! c = Some (File data m).
Proof.
  unfold upload_file, bind.
  destruct (FS.mkdir fs (parent (_abs self path))) as [[[]|e] fs1]; [|done].
  destruct (write_bytes fs1 (_abs self path) data) as [[n|e] fs2] eqn:Hw; [|done].
  intros H. inversion H; subst.
  apply write_bytes_places in Hw as (c & Hl & ->).
  exists c, (clock fs1). split; [done|]. simpl. by rewrite lookup_insert_eq.
Qed.

(** X23.  After [upload_file] has returned, [get_file_info] of the same
    path returns: it reports a regular file whose size is the number of
    bytes uploaded, and [download_file] returns these bytes. *)
Theorem upload_then_file_info (self : _LocalFS) (data : bytes) (path : pstr)
    (fs fs' : FS.t) :
  upload_file self data path fs = (inl tt, fs') ->
  (exists info,
     get_file_info self path fs' = inl info
     /\ size info = Z.of_nat (length data)
     /\ is_dir info = false)
  /\ download_file self path fs' = inl data.
Proof.
  intros H. destruct (upload_file_places _ _ _ _ _ H) as (c & m & Hl & Hc). split.
  - unfold get_file_info, file_info, FS.is_dir, os_stat. rewrite Hl, Hc. simpl.
    eexists. split; [done|]. done.
  - unfold download_file, read_bytes. by rewrite Hl, Hc.
Qed.



End AdapterSequences.

Section RootAsText.
Import PyStr WorkspaceConfig.

(** X25.  [normalize_path] takes the workspace root away as a beginning
    of the text, not as a directory: when the path begins with the
    characters of the root (without its leading slashes), these characters
    go, whatever comes after them, also in the middle of a name. *)
Theorem workspace_root_stripped_as_text
    (cfg : WorkspaceConfig.t) (rest project_id : pstr) :
  let wp := lstrip slash (WORKSPACE_ROOT cfg) in
  wp <> [] ->
  normalize_path cfg (wp ++ rest) project_id
  = let x := lstrip slash rest in
    if startswith (project_id ++ [slash]) x
    then drop (length (project_id ++ [slash])) x
    else x.
Proof.
  intros wp Hwp. unfold normalize_path. fold wp.
  assert (lstrip slash (wp ++ rest) = wp ++ rest) as ->.
  { rewrite lstrip_app; unfold wp; rewrite lstrip_idem; done. }
  by rewrite startswith_app, drop_app_length.
Qed.

End RootAsText.

Lemma upload_then_file_info_witness :
  exists info,
    LocalProcess.get_file_info local_fs (py "new/b.txt")
      (LocalProcess.upload_file local_fs [x61; x62]%byte (py "new/b.txt") fs_sub).2
    = inl info
    /\ LocalProcess.size info = 2%Z.
Proof.
  set (x := LocalProcess.upload_file local_fs [x61; x62]%byte (py "new/b.txt") fs_sub).
  assert (x = (inl tt, x.2)) as Hx by (vm_compute; reflexivity).
  destruct (upload_then_file_info local_fs [x61; x62]%byte (py "new/b.txt") fs_sub x.2 Hx)
    as [(info & Hi & Hs & _) _].
  exists info. split; [exact Hi | exact Hs].
Defined.


Lemma workspace_root_stripped_as_text_witness :
  WorkspaceConfig.normalize_path cfg_local (py "workspace2/a.txt") (py "p1")
  = py "2/a.txt".
Proof.
  pose proof (workspace_root_stripped_as_text cfg_local (py "2/a.txt") (py "p1")) as H.
  cbv zeta in H.
  transitivity (WorkspaceConfig.normalize_path cfg_local
                  (PyStr.lstrip PyStr.slash (WorkspaceConfig.WORKSPACE_ROOT cfg_local)
                     ++ py "2/a.txt") (py "p1")).
  - vm_compute. reflexivity.
  - rewrite H; [vm_compute; reflexivity | vm_compute; discriminate].
Defined.
